(** * go-micro [server] package: the RPC stream and the default server

    A shallow embedding of [server/rpc_stream.go] and [server/server.go].
    Go methods with a pointer receiver become computations over an explicit
    world (the receiver's fields, the state of the objects it refers to, and
    the sequence of calls made on external collaborators).  A computation
    ends by returning, by panicking (nil dereference, unlocking a free
    mutex) or by blocking for ever (a lock that is held, a channel on which
    nothing arrives). *)

From Stdlib Require Import ZArith String List Bool Lia.
Import ListNotations.
Open Scope string_scope.
Open Scope list_scope.
Open Scope Z_scope.

(** ** Go values *)

(** Go's [error]: [nil] is [None], any other value carries its message. *)
Definition error := option string.

(** [uint64] arithmetic: values live in [0, 2^64) and [++] wraps around. *)
Definition uint64_modulus : Z := 2 ^ 64.
Definition uint64_incr (n : Z) : Z := (n + 1) mod uint64_modulus.
Arguments uint64_incr : simpl never.

(** ** Computations: state, panic, blocking *)

Inductive outcome (W A : Type) : Type :=
| Ret (a : A) (w : W)      (* the call returned [a] *)
| Panic (w : W)            (* run-time panic or fatal error *)
| Blocked (w : W).         (* the goroutine waits for ever *)
Arguments Ret {W A} a w.
Arguments Panic {W A} w.
Arguments Blocked {W A} w.

Definition M (W A : Type) : Type := W -> outcome W A.

Definition ret {W A} (a : A) : M W A := fun w => Ret a w.

Definition bind {W A B} (m : M W A) (k : A -> M W B) : M W B :=
  fun w =>
    match m w with
    | Ret a w' => k a w'
    | Panic w' => Panic w'
    | Blocked w' => Blocked w'
    end.

(** [defer cleanup] around a body: the cleanup runs when the body returns
    (and also while a panic unwinds); the body's result is what is returned. *)
Definition defer {W A} (cleanup : M W unit) (body : M W A) : M W A :=
  fun w =>
    match body w with
    | Ret a w' =>
        match cleanup w' with
        | Ret _ w'' => Ret a w''
        | Panic w'' => Panic w''
        | Blocked w'' => Blocked w''
        end
    | Panic w' =>
        match cleanup w' with
        | Ret _ w'' => Panic w''
        | Panic w'' => Panic w''
        | Blocked w'' => Blocked w''
        end
    | Blocked w' => Blocked w'
    end.

Declare Scope go_scope.
Delimit Scope go_scope with go.
Notation "x <- m ;; k" := (bind m (fun x => k))
  (at level 61, m at next level, right associativity) : go_scope.
Notation "m ;; k" := (bind m (fun _ => k))
  (at level 61, right associativity) : go_scope.

(** What a caller can see of an outcome. *)
Definition returned {W A} (o : outcome W A) : option A :=
  match o with Ret a _ => Some a | _ => None end.

Definition final {W A} (o : outcome W A) : W :=
  match o with Ret _ w | Panic w | Blocked w => w end.

(** ** [sync.RWMutex] *)

Module sync.

Record RWMutex : Type := { writer : bool; readers : nat }.

Definition unlocked : RWMutex := {| writer := false; readers := 0 |}.

(** Each operation gives the next state of the mutex, or [None] when the
    caller cannot proceed: [Lock] and [RLock] wait, [Unlock] and [RUnlock]
    of a mutex that is not held are fatal. *)
Definition Lock (m : RWMutex) : option RWMutex :=
    if writer m then None
    else match readers m with
         | O => Some {| writer := true; readers := 0 |}
         | S _ => None
         end.

Definition Unlock (m : RWMutex) : option RWMutex :=
    if writer m then Some {| writer := false; readers := readers m |} else None.

Definition RLock (m : RWMutex) : option RWMutex :=
    if writer m then None
    else Some {| writer := false; readers := S (readers m) |}.

Definition RUnlock (m : RWMutex) : option RWMutex :=
    match readers m with
    | O => None
    | S n => Some {| writer := writer m; readers := n |}
    end.

End sync.

(** ** Interfaces and structs the stream uses *)

(** The [Request] interface of server.go, as the immutable view a handler
    gets: one value per method.  [V] is the type of the payloads that travel
    behind Go's [interface{}]; [option V] is an [interface{}], [None] being
    [nil]. *)
Module Request.
Record t {V : Type} : Type := mk {
    Service : string;
    Method : string;
    ContentType : string;
    Request : option V;
    Stream : bool
  }.
Arguments t : clear implicits.
Arguments mk {V}.
End Request.

(** The [response] struct.  It is declared elsewhere in the package; the
    fields are the two that the composite literal in [Send] sets. *)
Module response.
Record t : Type := mk { ServiceMethod : string; Seq : Z }.
End response.

(** Modelled from the spec: the [serverCodec] interface is declared elsewhere
    in the package.  Section 6 of the specification gives its contract (ReadRequestHeader,
    ReadRequestBody where a nil target discards the body, WriteResponse with
    a boolean flag, Close, each returning an error) and the call sites in
    rpc_stream.go give the argument lists.  [C] is the state of the codec
    object and of the connection behind it, [H] the [request] header struct
    that [ReadRequestHeader] fills in.  A method of the interface may be any
    function of its arguments and of that state. *)
Module serverCodec.
Record t {V C H : Type} : Type := mk {
    ReadRequestHeader : H -> bool -> C -> (H * error) * C;
    ReadRequestBody : option V -> C -> (option V * error) * C;
    WriteResponse : response.t -> option V -> bool -> C -> error * C;
    Close : C -> error * C
  }.
Arguments t : clear implicits.
Arguments mk {V C H}.
End serverCodec.

(** ** rpc_stream.go *)

Module rpcStream.

Section Stream.

Variable V : Type.            (* payloads behind [interface{}] *)
Variable Ctx : Type.          (* [context.Context] *)
Variable C : Type.            (* state of the codec object *)
Variable H : Type.            (* the [request] header struct *)
Variable request_zero : H.    (* its zero value, [request{}] *)

(** The struct.  The embedded mutex is the field [RWMutex]; [codec] is the
    interface value (which methods are called), the codec object itself
    lives in the world below.  [request] and [codec] are taken to be non-nil,
    as the stream's methods dereference them without a check. *)
Record t : Type := mk {
  RWMutex : sync.RWMutex;
  seq : Z;
  closed : bool;
  err : error;
  request : Request.t V;
  codec : serverCodec.t V C H;
  context : Ctx
}.

(** Calls the stream makes on its collaborators, in the order made. *)
Inductive call : Type :=
| ReadRequestHeaderCall (flag : bool)
| ReadRequestBodyCall (target : option V)
| WriteResponseCall (resp : response.t) (msg : option V) (more : bool)
| CloseCall
| LogPrintln (prefix : string) (e : error).

(** The world of one stream: the struct [r] points to, the codec object its
    [codec] field refers to, and the calls made so far. *)
Record world : Type := mkWorld {
  stream : t;
  conn : C;
  calls : list call
}.

Definition Go (A : Type) : Type := M world A.

(** *** Field access through the receiver *)

Definition read {A} (f : t -> A) : Go A := fun w => Ret (f (stream w)) w.

Definition write (f : t -> t) : Go unit :=
  fun w => Ret tt (mkWorld (f (stream w)) (conn w) (calls w)).

Definition set_RWMutex (m : sync.RWMutex) (r : t) : t :=
  mk m (seq r) (closed r) (err r) (request r) (codec r) (context r).
Definition set_seq (n : Z) (r : t) : t :=
  mk (RWMutex r) n (closed r) (err r) (request r) (codec r) (context r).
Definition set_closed (b : bool) (r : t) : t :=
  mk (RWMutex r) (seq r) b (err r) (request r) (codec r) (context r).

(** *** The embedded mutex *)

Definition mutex_op (op : sync.RWMutex -> option sync.RWMutex)
    (stuck : world -> outcome world unit) : Go unit :=
  fun w =>
    match op (RWMutex (stream w)) with
    | Some m => write (set_RWMutex m) w
    | None => stuck w
    end.

Definition Lock : Go unit := mutex_op sync.Lock Blocked.
Definition Unlock : Go unit := mutex_op sync.Unlock Panic.
Definition RLock : Go unit := mutex_op sync.RLock Blocked.
Definition RUnlock : Go unit := mutex_op sync.RUnlock Panic.

(** *** Calls on the codec and on the logger *)

Definition record {A} (c : call) (r : A * C) : Go A :=
  fun w => Ret (fst r) (mkWorld (stream w) (snd r) (calls w ++ [c])).

Definition codec_ReadRequestHeader (req : H) (flag : bool) : Go (H * error) :=
  fun w =>
    record (ReadRequestHeaderCall flag)
      (serverCodec.ReadRequestHeader (codec (stream w)) req flag (conn w)) w.

Definition codec_ReadRequestBody (target : option V) : Go (option V * error) :=
  fun w =>
    record (ReadRequestBodyCall target)
      (serverCodec.ReadRequestBody (codec (stream w)) target (conn w)) w.

Definition codec_WriteResponse (resp : response.t) (msg : option V) (more : bool)
    : Go error :=
  fun w =>
    record (WriteResponseCall resp msg more)
      (serverCodec.WriteResponse (codec (stream w)) resp msg more (conn w)) w.

Definition codec_Close : Go error :=
  fun w => record CloseCall (serverCodec.Close (codec (stream w)) (conn w)) w.

Definition log_Println (prefix : string) (e : error) : Go unit :=
  fun w => Ret tt (mkWorld (stream w) (conn w) (calls w ++ [LogPrintln prefix e])).

(** *** The methods *)

Local Open Scope go_scope.

Definition Context : Go Ctx := read context.

Definition Request : Go (Request.t V) := read request.

Definition Send (msg : option V) : Go error :=
  Lock ;;
  defer Unlock (
    seq0 <- read seq ;;
    write (set_seq (uint64_incr seq0)) ;;
    req <- read request ;;
    let resp := response.mk (Request.Method req) seq0 in
    err <- codec_WriteResponse resp msg false ;;
    match err with
    | Some _ => log_Println "rpc: writing response:" err
    | None => ret tt
    end ;;
    ret err).

(** [Recv] returns the error and what the caller's [msg] holds afterwards
    (Go fills it in through the pointer). *)
Definition Recv (msg : option V) : Go (option V * error) :=
  Lock ;;
  defer Unlock (
    let req := request_zero in
    hdr <- codec_ReadRequestHeader req false ;;
    match snd hdr with
    | Some e =>
        (* discard body *)
        codec_ReadRequestBody None ;;
        ret (msg, Some e)
    | None =>
        body <- codec_ReadRequestBody msg ;;
        match snd body with
        | Some e => ret (fst body, Some e)
        | None => ret (fst body, None)
        end
    end).

Definition Error : Go error :=
  RLock ;;
  defer RUnlock (read err).

Definition Close : Go error :=
  Lock ;;
  defer Unlock (
    write (set_closed true) ;;
    codec_Close).

(** *** Construction and use *)

(** Modelled from the spec: the place where the server builds an [rpcStream]
    is elsewhere in the package.  Section 3 of the specification fixes the
    request, the context and the codec at construction and starts the
    sequence counter at 0, [closed] at false and the last error at nil; these
    are also Go's zero values for the fields a composite literal leaves out. *)
Definition newStream (req : Request.t V) (cdc : serverCodec.t V C H) (ctx : Ctx) : t :=
  mk sync.unlocked 0 false None req cdc ctx.

(** The world in which a new stream over a codec object in state [c] starts. *)
Definition start (req : Request.t V) (cdc : serverCodec.t V C H) (ctx : Ctx) (c : C)
    : world :=
  mkWorld (newStream req cdc ctx) c [].

(** One call on the [Streamer] interface, and what it returned. *)
Inductive op : Type :=
| OpContext
| OpRequest
| OpSend (msg : option V)
| OpRecv (msg : option V)
| OpError
| OpClose.

Inductive result : Type :=
| RContext (c : Ctx)
| RRequest (r : Request.t V)
| RSend (e : error)
| RRecv (msg : option V) (e : error)
| RError (e : error)
| RClose (e : error).

Definition run_op (o : op) : Go result :=
  match o with
  | OpContext => c <- Context ;; ret (RContext c)
  | OpRequest => r <- Request ;; ret (RRequest r)
  | OpSend msg => e <- Send msg ;; ret (RSend e)
  | OpRecv msg => me <- Recv msg ;; ret (RRecv (fst me) (snd me))
  | OpError => e <- Error ;; ret (RError e)
  | OpClose => e <- Close ;; ret (RClose e)
  end.

(** A caller making the calls one after the other. *)
Fixpoint run_ops (os : list op) : Go (list result) :=
  match os with
  | [] => ret []
  | o :: os' => r <- run_op o ;; rs <- run_ops os' ;; ret (r :: rs)
  end.

Definition is_send (o : op) : bool :=
  match o with OpSend _ => true | _ => false end.

Definition count_sends (os : list op) : nat := length (filter is_send os).

(** The envelopes handed to [WriteResponse], in order, and their numbers. *)
Fixpoint envelopes (cs : list call) : list response.t :=
  match cs with
  | [] => []
  | WriteResponseCall resp _ _ :: cs' => resp :: envelopes cs'
  | _ :: cs' => envelopes cs'
  end.

Definition sent_seqs (cs : list call) : list Z := map response.Seq (envelopes cs).

(** The numbers of the envelopes of the Sends that returned nil: the calls
    are paired with the results of the operations that made them. *)
Fixpoint successful_seqs (rs : list result) (env : list response.t) : list Z :=
  match rs, env with
  | RSend None :: rs', e :: env' => response.Seq e :: successful_seqs rs' env'
  | RSend (Some _) :: rs', _ :: env' => successful_seqs rs' env'
  | _ :: rs', _ => successful_seqs rs' env
  | [], _ => []
  end.

(** The same for a finished run of calls. *)
Definition successful_seqs_of (o : outcome world (list result)) : list Z :=
  match returned o with
  | Some rs => successful_seqs rs (envelopes (calls (final o)))
  | None => []
  end.

(** The body-discard path: [ReadRequestBody] with a nil target. *)
Definition is_discard (c : call) : bool :=
  match c with ReadRequestBodyCall None => true | _ => false end.

Definition count_calls (p : call -> bool) (cs : list call) : nat :=
  length (filter p cs).

(** The calls made between two worlds of the same stream. *)
Definition calls_since (w w' : world) : list call :=
  skipn (length (calls w)) (calls w').

Definition op_is_close (o : op) : bool :=
  match o with OpClose => true | _ => false end.

(** *** Accounting of a run

    Kinds of calls, of operations and of results, to count them in a run. *)

Definition is_recv (o : op) : bool :=
  match o with OpRecv _ => true | _ => false end.

Definition count_ops (p : op -> bool) (os : list op) : nat :=
  length (filter p os).

Definition is_header_read (c : call) : bool :=
  match c with ReadRequestHeaderCall _ => true | _ => false end.

Definition is_body_read (c : call) : bool :=
  match c with ReadRequestBodyCall _ => true | _ => false end.

Definition is_write (c : call) : bool :=
  match c with WriteResponseCall _ _ _ => true | _ => false end.

Definition is_close_call (c : call) : bool :=
  match c with CloseCall => true | _ => false end.

Definition is_log (c : call) : bool :=
  match c with LogPrintln _ _ => true | _ => false end.

Definition failed_send (r : result) : bool :=
  match r with RSend (Some _) => true | _ => false end.

Definition count_results (p : result -> bool) (rs : list result) : nat :=
  length (filter p rs).

(** The arguments the stream gives the codec: every envelope names the
    method of the request [rq], and both flags are the literal [false]. *)
Definition well_addressed (rq : Request.t V) (c : call) : Prop :=
  match c with
  | WriteResponseCall resp _ more =>
      response.ServiceMethod resp = Request.Method rq /\ more = false
  | ReadRequestHeaderCall flag => flag = false
  | _ => True
  end.

(** A result of [Context], [Request] or [Error] shows the given values. *)
Definition reads_agree (cx : Ctx) (rq : Request.t V) (er : error) (r : result)
    : Prop :=
  match r with
  | RContext c => c = cx
  | RRequest q => q = rq
  | RError e => e = er
  | _ => True
  end.

(** The same world with the [closed] field set to [b]. *)
Definition with_closed (b : bool) (w : world) : world :=
  mkWorld (set_closed b (stream w)) (conn w) (calls w).

(** *** What the codec answers

    The answers of the codec to the calls [Send], [Recv] and [Close] make
    from the world [w]; [free] says that nobody holds the stream's mutex. *)

Definition write_answer (w : world) (msg : option V) : error * C :=
  serverCodec.WriteResponse (codec (stream w))
    (response.mk (Request.Method (request (stream w))) (seq (stream w)))
    msg false (conn w).

Definition header_answer (w : world) : (H * error) * C :=
  serverCodec.ReadRequestHeader (codec (stream w)) request_zero false (conn w).

Definition body_answer (w : world) (target : option V) : (option V * error) * C :=
  serverCodec.ReadRequestBody (codec (stream w)) target (snd (header_answer w)).

Definition close_answer (w : world) : error * C :=
  serverCodec.Close (codec (stream w)) (conn w).

Definition free (w : world) : Prop := RWMutex (stream w) = sync.unlocked.

(** A list of numbers that is 0, 1, ..., n-1 for its length n. *)
Definition numbered_from_zero (l : list Z) : Prop :=
  l = map Z.of_nat (List.seq 0 (length l)).

End Stream.

Arguments mk {V Ctx C H}.
Arguments RWMutex {V Ctx C H}.
Arguments seq {V Ctx C H}.
Arguments closed {V Ctx C H}.
Arguments err {V Ctx C H}.
Arguments request {V Ctx C H}.
Arguments codec {V Ctx C H}.
Arguments context {V Ctx C H}.
Arguments ReadRequestHeaderCall {V}.
Arguments ReadRequestBodyCall {V}.
Arguments WriteResponseCall {V}.
Arguments CloseCall {V}.
Arguments LogPrintln {V}.
Arguments mkWorld {V Ctx C H}.
Arguments stream {V Ctx C H}.
Arguments conn {V Ctx C H}.
Arguments calls {V Ctx C H}.
Arguments Context {V Ctx C H}.
Arguments Request {V Ctx C H}.
Arguments Send {V Ctx C H}.
Arguments Recv {V Ctx C H}.
Arguments Error {V Ctx C H}.
Arguments Close {V Ctx C H}.
Arguments newStream {V Ctx C H}.
Arguments start {V Ctx C H}.
Arguments OpContext {V}.
Arguments OpRequest {V}.
Arguments OpSend {V}.
Arguments OpRecv {V}.
Arguments OpError {V}.
Arguments OpClose {V}.
Arguments RContext {V Ctx}.
Arguments RRequest {V Ctx}.
Arguments RSend {V Ctx}.
Arguments RRecv {V Ctx}.
Arguments RError {V Ctx}.
Arguments RClose {V Ctx}.
Arguments run_op {V Ctx C H}.
Arguments run_ops {V Ctx C H}.
Arguments is_send {V}.
Arguments count_sends {V}.
Arguments envelopes {V}.
Arguments sent_seqs {V}.
Arguments successful_seqs {V Ctx}.
Arguments successful_seqs_of {V Ctx C H}.
Arguments is_discard {V}.
Arguments count_calls {V}.
Arguments calls_since {V Ctx C H}.
Arguments op_is_close {V}.
Arguments is_recv {V}.
Arguments count_ops {V}.
Arguments is_header_read {V}.
Arguments is_body_read {V}.
Arguments is_write {V}.
Arguments is_close_call {V}.
Arguments is_log {V}.
Arguments failed_send {V Ctx}.
Arguments count_results {V Ctx}.
Arguments well_addressed {V}.
Arguments reads_agree {V Ctx}.
Arguments with_closed {V Ctx C H}.
Arguments write_answer {V Ctx C H}.
Arguments header_answer {V Ctx C H}.
Arguments body_answer {V Ctx C H}.
Arguments close_answer {V Ctx C H}.
Arguments free {V Ctx C H}.

End rpcStream.

(** ** server.go *)

(** The signals [Run] asks to be notified of. *)
Module syscall.
Inductive Signal : Type := SIGTERM | SIGINT | SIGKILL.
End syscall.

(** Modelled from the spec: the type behind the [Server] interface is
    declared elsewhere in the package, so each method is any function of its
    arguments and of the state [S] of the object behind the interface value,
    except that [Config] only reads that state (section 3 of the
    specification: the configuration is "mutable only through Init, read
    through Config()").  The method set is the one server.go declares;
    [options] is the configuration struct and an [Option] a function that
    edits it through a pointer. *)
Module Server.
Record t {S options Handler Subscriber V : Type} : Type := mk {
  Config : S -> options;
  Init : list (options -> options) -> S -> S;
  Handle : Handler -> S -> error * S;
  NewHandler : option V -> S -> Handler * S;
  NewSubscriber : string -> option V -> S -> Subscriber * S;
  Subscribe : Subscriber -> S -> error * S;
  Register : S -> error * S;
  Deregister : S -> error * S;
  Start : S -> error * S;
  Stop : S -> error * S;
  String : S -> string * S
}.
Arguments t : clear implicits.
Arguments mk {S options Handler Subscriber V}.
End Server.

Module server.

Inductive method : Type :=
| mConfig | mInit | mHandle | mNewHandler | mNewSubscriber | mSubscribe
| mRegister | mDeregister | mStart | mStop | mString.

Inductive logarg : Type :=
| ArgString (s : string)
| ArgSignal (sg : syscall.Signal).

(** What the package does to the outside, in order: method calls on the
    default server, lines given to the logger, the registration of the signal
    channel and the receipt of a signal from it. *)
Inductive event : Type :=
| MethodCall (m : method)
| Infof (format : string) (args : list logarg)
| SignalNotify (sigs : list syscall.Signal)
| ChanRecv (sg : syscall.Signal).

Definition DefaultAddress : string := ":0".
Definition DefaultName : string := "go-server".
Definition DefaultVersion : string := "1.0.0".

Section Package.

Variable S : Type.
Variable options : Type.
Variable options_Name : options -> string.   (* [config.Name()] *)
Variable options_Id : options -> string.     (* [config.Id()] *)
Variable Handler : Type.
Variable Subscriber : Type.
Variable V : Type.

Definition Option : Type := options -> options.

Variable impl : Server.t S options Handler Subscriber V.
Variable newRpcServer : list Option -> S.

(** The package's state: the variable [DefaultServer] ([None] is the nil
    interface), the signals the operating system will relay to a notified
    channel, and the events so far. *)
Record pkg : Type := mkPkg {
  DefaultServer : option S;
  signals : list syscall.Signal;
  trace : list event
}.

Definition Go (A : Type) : Type := M pkg A.

(** The state after the package's variable initialisers have run:
    [DefaultServer Server = newRpcServer()]. *)
Definition pkg_init (sigs : list syscall.Signal) : pkg :=
  mkPkg (Some (newRpcServer [])) sigs [].

Definition emit (e : event) : Go unit :=
  fun p => Ret tt (mkPkg (DefaultServer p) (signals p) (trace p ++ [e])).

(** A method call on the interface variable: a nil interface panics. *)
Definition method_call {A} (m : method) (f : S -> A * S) : Go A :=
  fun p =>
    match DefaultServer p with
    | None => Panic p
    | Some s =>
        Ret (fst (f s))
            (mkPkg (Some (snd (f s))) (signals p) (trace p ++ [MethodCall m]))
    end.

Definition DefaultServer_Config : Go options :=
  method_call mConfig (fun s => (Server.Config impl s, s)).
Definition DefaultServer_Init (opt : list Option) : Go unit :=
  method_call mInit (fun s => (tt, Server.Init impl opt s)).
Definition DefaultServer_Handle (h : Handler) : Go error :=
  method_call mHandle (Server.Handle impl h).
Definition DefaultServer_NewHandler (h : option V) : Go Handler :=
  method_call mNewHandler (Server.NewHandler impl h).
Definition DefaultServer_NewSubscriber (topic : string) (h : option V) : Go Subscriber :=
  method_call mNewSubscriber (Server.NewSubscriber impl topic h).
Definition DefaultServer_Subscribe (s : Subscriber) : Go error :=
  method_call mSubscribe (Server.Subscribe impl s).
Definition DefaultServer_Register : Go error :=
  method_call mRegister (Server.Register impl).
Definition DefaultServer_Deregister : Go error :=
  method_call mDeregister (Server.Deregister impl).
Definition DefaultServer_Start : Go error :=
  method_call mStart (Server.Start impl).
Definition DefaultServer_Stop : Go error :=
  method_call mStop (Server.Stop impl).
Definition DefaultServer_String : Go string :=
  method_call mString (Server.String impl).

Definition log_Infof (format : string) (args : list logarg) : Go unit :=
  emit (Infof format args).

Definition signal_Notify (sigs : list syscall.Signal) : Go unit :=
  emit (SignalNotify sigs).

(** [<-ch]: the next relayed signal, or wait for ever when none comes. *)
Definition chan_recv : Go syscall.Signal :=
  fun p =>
    match signals p with
    | [] => Blocked p
    | sg :: rest => Ret sg (mkPkg (DefaultServer p) rest (trace p ++ [ChanRecv sg]))
    end.

Local Open Scope go_scope.

Definition Config : Go options := DefaultServer_Config.

Definition Init (opt : list Option) : Go unit :=
  (fun p =>
     match DefaultServer p with
     | None => Ret tt (mkPkg (Some (newRpcServer opt)) (signals p) (trace p))
     | Some _ => Ret tt p
     end) ;;
  DefaultServer_Init opt.

Definition NewServer (opt : list Option) : Go S := ret (newRpcServer opt).

Definition NewSubscriber (topic : string) (h : option V) : Go Subscriber :=
  DefaultServer_NewSubscriber topic h.

Definition NewHandler (h : option V) : Go Handler := DefaultServer_NewHandler h.

Definition Handle (h : Handler) : Go error := DefaultServer_Handle h.

Definition Subscribe (s : Subscriber) : Go error := DefaultServer_Subscribe s.

Definition Register : Go error := DefaultServer_Register.

Definition Deregister : Go error := DefaultServer_Deregister.

Definition Start : Go error :=
  config <- DefaultServer_Config ;;
  log_Infof "Starting server %s id %s"
    [ArgString (options_Name config); ArgString (options_Id config)] ;;
  DefaultServer_Start.

Definition Stop : Go error :=
  log_Infof "Stopping server" [] ;;
  DefaultServer_Stop.

Definition Run : Go error :=
  err <- Start ;;
  match err with
  | Some _ => ret err
  | None =>
      err <- DefaultServer_Register ;;
      match err with
      | Some _ => ret err
      | None =>
          signal_Notify [syscall.SIGTERM; syscall.SIGINT; syscall.SIGKILL] ;;
          sg <- chan_recv ;;
          log_Infof "Received signal %s" [ArgSignal sg] ;;
          err <- DefaultServer_Deregister ;;
          match err with
          | Some _ => ret err
          | None => Stop
          end
      end
  end.

Definition String : Go string := DefaultServer_String.

(** The lifecycle steps among the events. *)
Inductive step : Type :=
| StepStart | StepRegister | StepWait | StepDeregister | StepStop.

Fixpoint lifecycle (es : list event) : list step :=
  match es with
  | [] => []
  | MethodCall mStart :: es' => StepStart :: lifecycle es'
  | MethodCall mRegister :: es' => StepRegister :: lifecycle es'
  | ChanRecv _ :: es' => StepWait :: lifecycle es'
  | MethodCall mDeregister :: es' => StepDeregister :: lifecycle es'
  | MethodCall mStop :: es' => StepStop :: lifecycle es'
  | _ :: es' => lifecycle es'
  end.

(** The events between two states of the package. *)
Definition events_since (p p' : pkg) : list event :=
  skipn (length (trace p)) (trace p').

(** The order of a complete run. *)
Definition run_order : list step :=
  [StepStart; StepRegister; StepWait; StepDeregister; StepStop].

(** A package-level function [f] hands the call to the method [m] of the
    default server: it returns what the method returns and leaves the
    instance as the method leaves it; on a nil [DefaultServer] it panics, as
    the method call itself does. *)
Definition delegates {A} (f : Go A) (m : S -> A * S) : Prop :=
  forall p : pkg,
    match DefaultServer p with
    | Some s =>
        returned (f p) = Some (fst (m s)) /\
        DefaultServer (final (f p)) = Some (snd (m s)) /\
        signals (final (f p)) = signals p
    | None =>
        exists p', f p = Panic p' /\ DefaultServer p' = None /\
                   signals p' = signals p
    end.

(** [f] builds no server: called while [DefaultServer] is nil, it panics
    and leaves the variable nil. *)
Definition panics_on_nil {A} (f : Go A) : Prop :=
  forall (sigs : list syscall.Signal) (tr : list event),
    exists p', f (mkPkg None sigs tr) = Panic p' /\ DefaultServer p' = None.

(** One call of a package-level function by a user of the package, and a
    user making such calls one after the other (the results are dropped). *)
Inductive pkg_call : Type :=
| CallConfig
| CallInit (opt : list Option)
| CallNewServer (opt : list Option)
| CallNewSubscriber (topic : string) (h : option V)
| CallNewHandler (h : option V)
| CallHandle (h : Handler)
| CallSubscribe (s : Subscriber)
| CallRegister
| CallDeregister
| CallRun
| CallStart
| CallStop
| CallString.

Definition drop {A} (f : Go A) : Go unit := _ <- f ;; ret tt.

Definition run_call (c : pkg_call) : Go unit :=
  match c with
  | CallConfig => drop Config
  | CallInit opt => Init opt
  | CallNewServer opt => drop (NewServer opt)
  | CallNewSubscriber topic h => drop (NewSubscriber topic h)
  | CallNewHandler h => drop (NewHandler h)
  | CallHandle h => drop (Handle h)
  | CallSubscribe s => drop (Subscribe s)
  | CallRegister => drop Register
  | CallDeregister => drop Deregister
  | CallRun => drop Run
  | CallStart => drop Start
  | CallStop => drop Stop
  | CallString => drop String
  end.

Fixpoint run_calls (cs : list pkg_call) : Go unit :=
  match cs with
  | [] => ret tt
  | c :: cs' => run_call c ;; run_calls cs'
  end.

Definition panicked {A} (o : outcome pkg A) : bool :=
  match o with Panic _ => true | _ => false end.

(** Whether the events contain a call of the method [m]. *)
Definition calls_method (m : method) (es : list event) : Prop :=
  In (MethodCall m) es.

End Package.

Arguments mkPkg {S}.
Arguments DefaultServer {S}.
Arguments signals {S}.
Arguments trace {S}.
Arguments pkg_init {S options}.
Arguments Config {S options Handler Subscriber V}.
Arguments Init {S options Handler Subscriber V}.
Arguments NewServer {S options}.
Arguments NewSubscriber {S options Handler Subscriber V}.
Arguments NewHandler {S options Handler Subscriber V}.
Arguments Handle {S options Handler Subscriber V}.
Arguments Subscribe {S options Handler Subscriber V}.
Arguments Register {S options Handler Subscriber V}.
Arguments Deregister {S options Handler Subscriber V}.
Arguments Start {S options} options_Name options_Id {Handler Subscriber V}.
Arguments Stop {S options Handler Subscriber V}.
Arguments Run {S options} options_Name options_Id {Handler Subscriber V}.
Arguments String {S options Handler Subscriber V}.
Arguments events_since {S}.
Arguments delegates {S A}.
Arguments panics_on_nil {S A}.
Arguments CallConfig {options Handler Subscriber V}.
Arguments CallInit {options Handler Subscriber V}.
Arguments CallNewServer {options Handler Subscriber V}.
Arguments CallNewSubscriber {options Handler Subscriber V}.
Arguments CallNewHandler {options Handler Subscriber V}.
Arguments CallHandle {options Handler Subscriber V}.
Arguments CallSubscribe {options Handler Subscriber V}.
Arguments CallRegister {options Handler Subscriber V}.
Arguments CallDeregister {options Handler Subscriber V}.
Arguments CallRun {options Handler Subscriber V}.
Arguments CallStart {options Handler Subscriber V}.
Arguments CallStop {options Handler Subscriber V}.
Arguments CallString {options Handler Subscriber V}.
Arguments run_call {S options} options_Name options_Id {Handler Subscriber V}.
Arguments run_calls {S options} options_Name options_Id {Handler Subscriber V}.
Arguments panicked {S A}.

End server.

(** ** Test doubles

    A scripted codec and a scripted server, as a test of the package would
    write them: each method answers with the next error of its script (nil
    when the script is exhausted). *)

Module fake.

Definition next (script : list error) : error * list error :=
  match script with
  | [] => (None, [])
  | e :: rest => (e, rest)
  end.

Record conn : Type := mkConn {
  header_script : list error;
  body_script : list error;
  write_script : list error;
  close_script : list error
}.

Definition codec : serverCodec.t string conn unit :=
  serverCodec.mk
    (fun req _ c =>
       ((req, fst (next (header_script c))),
        mkConn (snd (next (header_script c))) (body_script c)
               (write_script c) (close_script c)))
    (fun target c =>
       ((match target, fst (next (body_script c)) with
         | Some _, None => Some "body"
         | _, _ => target
         end, fst (next (body_script c))),
        mkConn (header_script c) (snd (next (body_script c)))
               (write_script c) (close_script c)))
    (fun _ _ _ c =>
       (fst (next (write_script c)),
        mkConn (header_script c) (body_script c)
               (snd (next (write_script c))) (close_script c)))
    (fun c =>
       (fst (next (close_script c)),
        mkConn (header_script c) (body_script c)
               (write_script c) (snd (next (close_script c))))).

Definition quiet : conn := mkConn [] [] [] [].

Definition greeter : Request.t string :=
  Request.mk "Greeter" "Hello" "application/json" None true.

(** A stream over the scripted codec, for the request Greeter/Hello. *)
Definition world_of (c : conn) : rpcStream.world string unit conn unit :=
  rpcStream.start greeter codec tt c.

Record srv : Type := mkSrv {
  name : string;
  start_script : list error;
  register_script : list error;
  deregister_script : list error;
  stop_script : list error
}.

Definition srv_options : Type := (string * string)%type.

Definition server : Server.t srv srv_options string string string :=
  Server.mk
    (fun s => (name s, "id-1"))
    (fun opts s =>
       mkSrv (fst (fold_left (fun o f => f o) opts (name s, "id-1")))
             (start_script s) (register_script s) (deregister_script s)
             (stop_script s))
    (fun _ s => (None, s))
    (fun _ s => ("handler", s))
    (fun topic _ s => (topic, s))
    (fun _ s => (None, s))
    (fun s =>
       (fst (next (register_script s)),
        mkSrv (name s) (start_script s) (snd (next (register_script s)))
              (deregister_script s) (stop_script s)))
    (fun s =>
       (fst (next (deregister_script s)),
        mkSrv (name s) (start_script s) (register_script s)
              (snd (next (deregister_script s))) (stop_script s)))
    (fun s =>
       (fst (next (start_script s)),
        mkSrv (name s) (snd (next (start_script s))) (register_script s)
              (deregister_script s) (stop_script s)))
    (fun s =>
       (fst (next (stop_script s)),
        mkSrv (name s) (start_script s) (register_script s)
              (deregister_script s) (snd (next (stop_script s)))))
    (fun s => (name s, s)).

Definition newRpcServer (opts : list (srv_options -> srv_options)) : srv :=
  Server.Init server opts (mkSrv server.DefaultName [] [] [] []).

Definition with_name (n : string) : srv_options -> srv_options :=
  fun o => (n, snd o).

(** A run with a failing Send, a Recv whose header read fails, and a
    Close, over a codec scripted accordingly. *)
Definition mixed_run : list (rpcStream.op string) :=
  [rpcStream.OpSend (Some "a"); rpcStream.OpRecv (Some ""); rpcStream.OpError;
   rpcStream.OpSend (Some "b"); rpcStream.OpClose; rpcStream.OpSend None;
   rpcStream.OpContext; rpcStream.OpRequest].

Definition mixed_world : rpcStream.world string unit conn unit :=
  world_of (mkConn [Some "EOF"] [] [None; Some "broken pipe"] []).


Definition last_number_world : rpcStream.world string unit conn unit :=
  rpcStream.mkWorld
    (rpcStream.mk sync.unlocked (uint64_modulus - 1) false None
       greeter codec tt)
    quiet [].

(** A package whose default server fails to deregister. *)
Definition sticky : server.pkg srv :=
  server.mkPkg (Some (mkSrv "go-server" [] [] [Some "registry down"] []))
    [syscall.SIGINT; syscall.SIGTERM] [].

End fake.

(** * Properties of the stream *)

Section StreamFacts.

Import rpcStream.

Context {V Ctx C H : Type}.
Variable request_zero : H.

Local Abbreviation world := (rpcStream.world V Ctx C H).
Local Abbreviation Recv := (rpcStream.Recv request_zero).
Local Abbreviation run_op := (rpcStream.run_op request_zero).
Local Abbreviation run_ops := (rpcStream.run_ops request_zero).
Local Abbreviation header_answer := (rpcStream.header_answer request_zero).
Local Abbreviation body_answer := (rpcStream.body_answer request_zero).

Ltac open_world w Hfree :=
  destruct w as [[mu sq cl er rq cd cx] cn cs];
  unfold free in Hfree; simpl in Hfree; subst mu.

Ltac step_methods :=
  unfold Send, rpcStream.Recv, Error, Close, Context, Request,
    Lock, Unlock, RLock, RUnlock, mutex_op, defer, bind, ret, read, write,
    codec_WriteResponse, codec_ReadRequestHeader, codec_ReadRequestBody,
    codec_Close, record, log_Println, set_RWMutex, set_seq, set_closed;
  simpl.

(** [Send] on a stream whose mutex is free. *)
Lemma Send_free (w : world) (msg : option V) :
  free w ->
  Send msg w =
    Ret (fst (write_answer w msg))
        (mkWorld (set_seq _ _ _ _ (uint64_incr (seq (stream w))) (stream w))
           (snd (write_answer w msg))
           (calls w ++
              WriteResponseCall
                (response.mk (Request.Method (request (stream w))) (seq (stream w)))
                msg false
              :: match fst (write_answer w msg) with
                 | Some e => [LogPrintln "rpc: writing response:" (Some e)]
                 | None => []
                 end)).
Proof.
  intros Hfree. open_world w Hfree.
  unfold write_answer; step_methods.
  destruct (serverCodec.WriteResponse cd _ msg false cn) as [[e|] c'];
    simpl; rewrite <- ?app_assoc; reflexivity.
Qed.

(** [Recv] on a stream whose mutex is free. *)
Lemma Recv_free (w : world) (msg : option V) :
  free w ->
  Recv msg w =
    match snd (fst (header_answer w)) with
    | Some e =>
        Ret (msg, Some e)
            (mkWorld (stream w) (snd (body_answer w None))
               (calls w ++ [ReadRequestHeaderCall false; ReadRequestBodyCall None]))
    | None =>
        Ret (fst (body_answer w msg))
            (mkWorld (stream w) (snd (body_answer w msg))
               (calls w ++ [ReadRequestHeaderCall false; ReadRequestBodyCall msg]))
    end.
Proof.
  intros Hfree. open_world w Hfree.
  unfold rpcStream.body_answer, rpcStream.header_answer; step_methods.
  destruct (serverCodec.ReadRequestHeader cd request_zero false cn)
    as [[h [e|]] c1]; simpl.
  - rewrite <- app_assoc. reflexivity.
  - destruct (serverCodec.ReadRequestBody cd msg c1) as [[m [e|]] c2];
      simpl; rewrite <- app_assoc; reflexivity.
Qed.

(** [Error] returns the field; a reader does not need the mutex to be free,
    only not to be held by a writer. *)
Lemma Error_readable (w : world) :
  sync.writer (RWMutex (stream w)) = false ->
  Error w = Ret (err (stream w)) w.
Proof.
  destruct w as [[[wr rd] sq cl er rq cd cx] cn cs]; simpl; intros ->.
  reflexivity.
Qed.

Lemma Error_free (w : world) : free w -> Error w = Ret (err (stream w)) w.
Proof.
  intros Hfree. apply Error_readable. unfold free in Hfree.
  rewrite Hfree. reflexivity.
Qed.

(** [Close] on a stream whose mutex is free. *)
Lemma Close_free (w : world) :
  free w ->
  Close w =
    Ret (fst (close_answer w))
        (mkWorld (set_closed _ _ _ _ true (stream w)) (snd (close_answer w))
           (calls w ++ [CloseCall])).
Proof.
  intros Hfree. open_world w Hfree.
  unfold close_answer; step_methods.
  destruct (serverCodec.Close cd cn) as [e c']; reflexivity.
Qed.

Lemma calls_since_app (w w' : world) (new : list (call V)) :
  calls w' = calls w ++ new -> calls_since w w' = new.
Proof.
  unfold calls_since. intros ->.
  rewrite skipn_app, skipn_all, Nat.sub_diag. reflexivity.
Qed.

(** C2. When the header read fails, [Recv] makes the discard call
    ([ReadRequestBody] with a nil target) exactly once, after the header
    read, and returns the header error.  When the header read succeeds,
    the only body call is the read into the caller's [msg] (no discard call
    is added); its error, if any, is what [Recv] returns, and [Recv] returns
    nil when both reads succeed. *)
Theorem C2_Recv_header_body_paths (w : world) (msg : option V) :
  free w ->
  let after := final (Recv msg w) in
  (forall e, snd (fst (header_answer w)) = Some e ->
     option_map snd (returned (Recv msg w)) = Some (Some e) /\
     calls_since w after =
       [ReadRequestHeaderCall false; ReadRequestBodyCall None] /\
     count_calls is_discard (calls_since w after) = 1%nat) /\
  (forall e, snd (fst (header_answer w)) = None ->
     snd (fst (body_answer w msg)) = Some e ->
     option_map snd (returned (Recv msg w)) = Some (Some e) /\
     calls_since w after =
       [ReadRequestHeaderCall false; ReadRequestBodyCall msg] /\
     (msg <> None -> count_calls is_discard (calls_since w after) = 0%nat)) /\
  (snd (fst (header_answer w)) = None ->
     snd (fst (body_answer w msg)) = None ->
     option_map snd (returned (Recv msg w)) = Some None /\
     calls_since w after =
       [ReadRequestHeaderCall false; ReadRequestBodyCall msg]).
Proof.
  intros Hfree after. subst after.
  rewrite (Recv_free w msg Hfree).
  split; [| split].
  - intros e Hhdr. rewrite Hhdr. simpl.
    erewrite calls_since_app by reflexivity. auto.
  - intros e Hhdr Hbody. rewrite Hhdr. simpl. rewrite Hbody.
    erewrite calls_since_app by reflexivity.
    repeat split. intros Hmsg.
    destruct msg; [reflexivity | contradiction].
  - intros Hhdr Hbody. rewrite Hhdr. simpl. rewrite Hbody.
    erewrite calls_since_app by reflexivity. auto.
Qed.

(** C5. [Send] returns the error of the codec's write and does not store it:
    the [err] field, and so the value [Error()] returns, is the same before
    and after the call, whether the write succeeded or failed. *)
Theorem C5_Send_does_not_record_error (w : world) (msg : option V) :
  free w ->
  returned (Send msg w) = Some (fst (write_answer w msg)) /\
  err (stream (final (Send msg w))) = err (stream w) /\
  returned (Error (final (Send msg w))) = returned (Error w) /\
  returned (Error w) = Some (err (stream w)).
Proof.
  intros Hfree.
  rewrite (Send_free w msg Hfree). simpl.
  rewrite (Error_free w Hfree).
  rewrite Error_free.
  - simpl. destruct w as [[mu sq cl er rq cd cx] cn cs]. auto.
  - unfold free in *. destruct w as [[mu sq cl er rq cd cx] cn cs]. exact Hfree.
Qed.

(** C6. Every [Close] sets [closed] to true and calls the codec's [Close],
    returning its error; a second [Close] leaves [closed] true and calls the
    codec's [Close] again.  The codec's answers are arbitrary, so this holds
    when they are errors. *)
Theorem C6_Close_marks_closed (w : world) :
  free w ->
  let w1 := final (Close w) in
  let w2 := final (Close w1) in
  returned (Close w) = Some (fst (close_answer w)) /\
  closed (stream w1) = true /\
  conn w1 = snd (close_answer w) /\
  calls_since w w1 = [CloseCall] /\
  returned (Close w1) = Some (fst (close_answer w1)) /\
  closed (stream w2) = true /\
  conn w2 = snd (close_answer w1) /\
  calls_since w w2 = [CloseCall; CloseCall].
Proof.
  intros Hfree w1 w2.
  assert (E1 : Close w = Ret (fst (close_answer w)) w1).
  { subst w1. rewrite (Close_free w Hfree). reflexivity. }
  assert (Hfree1 : free w1).
  { subst w1. rewrite (Close_free w Hfree).
    destruct w as [[mu sq cl er rq cd cx] cn cs]. exact Hfree. }
  assert (E2 : Close w1 = Ret (fst (close_answer w1)) w2).
  { subst w2. rewrite (Close_free w1 Hfree1). reflexivity. }
  assert (S1 : w1 = mkWorld (set_closed _ _ _ _ true (stream w))
                      (snd (close_answer w)) (calls w ++ [CloseCall])).
  { subst w1. rewrite (Close_free w Hfree). reflexivity. }
  assert (S2 : w2 = mkWorld (set_closed _ _ _ _ true (stream w1))
                      (snd (close_answer w1)) (calls w1 ++ [CloseCall])).
  { subst w2. rewrite (Close_free w1 Hfree1). reflexivity. }
  rewrite E1, E2. simpl.
  repeat split.
  - rewrite S1. reflexivity.
  - rewrite S1. reflexivity.
  - apply calls_since_app. rewrite S1. reflexivity.
  - rewrite S2. reflexivity.
  - rewrite S2. reflexivity.
  - apply calls_since_app. rewrite S2. simpl. rewrite S1. simpl.
    rewrite <- app_assoc. reflexivity.
Qed.

Lemma envelopes_app (a b : list (call V)) :
  envelopes (a ++ b) = envelopes a ++ envelopes b.
Proof.
  induction a as [|c a IH]; simpl; [reflexivity|].
  destruct c; simpl; rewrite IH; reflexivity.
Qed.

Lemma sent_seqs_app (a b : list (call V)) :
  sent_seqs (a ++ b) = sent_seqs a ++ sent_seqs b.
Proof. unfold sent_seqs. rewrite envelopes_app, map_app. reflexivity. Qed.

(** Every call on a stream whose mutex is free returns and leaves the mutex
    free; what it does to the fields and to the envelopes written. *)
Lemma run_op_free (w : world) (o : op V) :
  free w ->
  exists r w',
    run_op o w = Ret r w' /\ free w' /\
    seq (stream w') =
      (if is_send o then uint64_incr (seq (stream w)) else seq (stream w)) /\
    closed (stream w') = (if op_is_close o then true else closed (stream w)) /\
    err (stream w') = err (stream w) /\
    request (stream w') = request (stream w) /\
    codec (stream w') = codec (stream w) /\
    context (stream w') = context (stream w) /\
    sent_seqs (calls w') =
      sent_seqs (calls w) ++ (if is_send o then [seq (stream w)] else []).
Proof.
  intros Hfree.
  assert (Hmu : RWMutex (stream w) = sync.unlocked) by exact Hfree.
  destruct o as [| |msg|msg| |]; unfold rpcStream.run_op, bind.
  - eexists _, _. split; [reflexivity|]. rewrite app_nil_r. auto 10.
  - eexists _, _. split; [reflexivity|]. rewrite app_nil_r. auto 10.
  - rewrite (Send_free w msg Hfree). eexists _, _. split; [reflexivity|].
    unfold free; simpl. rewrite sent_seqs_app.
    destruct (fst (write_answer w msg)); simpl; auto 10.
  - rewrite (Recv_free w msg Hfree).
    destruct (snd (fst (header_answer w))); eexists _, _;
      (split; [reflexivity|]); unfold free; simpl;
      rewrite sent_seqs_app; simpl; rewrite !app_nil_r; auto 10.
  - rewrite (Error_free w Hfree). eexists _, _. split; [reflexivity|].
    rewrite app_nil_r. auto 10.
  - rewrite (Close_free w Hfree). eexists _, _. split; [reflexivity|].
    unfold free; simpl. rewrite sent_seqs_app; simpl. rewrite !app_nil_r.
    auto 10.
Qed.

(** C10. [Recv], [Context], [Request] and [Error] return and leave the whole
    struct as it was, whatever the codec answers; no call other than [Send]
    changes [seq] and no call other than [Close] changes [closed]. *)
Theorem C10_only_Send_and_Close_change_the_stream (w : world) :
  free w ->
  (forall msg, exists res,
      returned (Recv msg w) = Some res /\
      stream (final (Recv msg w)) = stream w) /\
  Context w = Ret (context (stream w)) w /\
  Request w = Ret (request (stream w)) w /\
  Error w = Ret (err (stream w)) w /\
  (forall o, is_send o = false ->
      seq (stream (final (run_op o w))) = seq (stream w)) /\
  (forall o, op_is_close o = false ->
      closed (stream (final (run_op o w))) = closed (stream w)).
Proof.
  intros Hfree.
  split; [| split; [| split; [| split; [| split]]]].
  - intros msg. rewrite (Recv_free w msg Hfree).
    destruct (snd (fst (header_answer w))); eexists; split; reflexivity.
  - reflexivity.
  - reflexivity.
  - apply Error_free, Hfree.
  - intros o Ho.
    destruct (run_op_free w o Hfree) as (r & w' & E & _ & Hseq & _).
    rewrite E, Ho in *. exact Hseq.
  - intros o Ho.
    destruct (run_op_free w o Hfree) as (r & w' & E & _ & _ & Hcl & _).
    rewrite E, Ho in *. exact Hcl.
Qed.

Lemma count_sends_cons (o : op V) (os : list (op V)) :
  count_sends (o :: os) =
    if is_send o then Datatypes.S (count_sends os) else count_sends os.
Proof. unfold count_sends. simpl. destruct (is_send o); reflexivity. Qed.

Lemma uint64_incr_of_nat (k : nat) :
  uint64_incr (Z.of_nat k mod uint64_modulus) =
    Z.of_nat (Datatypes.S k) mod uint64_modulus.
Proof.
  unfold uint64_incr. rewrite Zplus_mod_idemp_l. f_equal. lia.
Qed.

Lemma run_ops_cons (o : op V) (os : list (op V)) (w : world) :
  run_ops (o :: os) w =
    match run_op o w with
    | Ret r w1 =>
        match run_ops os w1 with
        | Ret rs w2 => Ret (r :: rs) w2
        | Panic w2 => Panic w2
        | Blocked w2 => Blocked w2
        end
    | Panic w1 => Panic w1
    | Blocked w1 => Blocked w1
    end.
Proof.
  simpl. unfold bind, ret.
  destruct (run_op o w) as [r w1|w1|w1]; reflexivity.
Qed.

(** A run of calls from a free stream whose counter holds [k]: every call
    returns, and the Sends among them write the numbers [k], [k+1], ...
    (modulo 2^64), one each. *)
Lemma run_ops_numbers (os : list (op V)) :
  forall (w : world) (k : nat),
    free w ->
    seq (stream w) = Z.of_nat k mod uint64_modulus ->
    exists rs w',
      run_ops os w = Ret rs w' /\ free w' /\
      seq (stream w') = Z.of_nat (k + count_sends os) mod uint64_modulus /\
      sent_seqs (calls w') =
        sent_seqs (calls w) ++
        map (fun i => Z.of_nat i mod uint64_modulus)
            (List.seq k (count_sends os)).
Proof.
  induction os as [|o os IH]; intros w k Hfree Hseq.
  - exists [], w. simpl. rewrite Nat.add_0_r, app_nil_r. auto.
  - destruct (run_op_free w o Hfree)
      as (r & w1 & E1 & Hfree1 & Hseq1 & _ & _ & _ & _ & _ & Hsent1).
    rewrite count_sends_cons.
    destruct (is_send o).
    + rewrite Hseq, uint64_incr_of_nat in Hseq1.
      destruct (IH w1 (Datatypes.S k) Hfree1 Hseq1)
        as (rs & w2 & E2 & Hfree2 & Hseq2 & Hsent2).
      exists (r :: rs), w2.
      rewrite run_ops_cons, E1, E2.
      repeat split; [assumption | | ].
      * rewrite Hseq2. f_equal. lia.
      * rewrite Hsent2, Hsent1, Hseq, <- app_assoc. reflexivity.
    + rewrite Hseq in Hseq1.
      destruct (IH w1 k Hfree1 Hseq1)
        as (rs & w2 & E2 & Hfree2 & Hseq2 & Hsent2).
      exists (r :: rs), w2.
      rewrite run_ops_cons, E1, E2.
      repeat split; [assumption | assumption | ].
      rewrite Hsent2, Hsent1, app_nil_r. reflexivity.
Qed.

(** The counter is a [uint64]: the Send after number 2^64 - 1 brings it
    back to 0. *)
Remark Send_wraps_around (w : world) (msg : option V) :
  free w ->
  seq (stream w) = uint64_modulus - 1 ->
  seq (stream (final (Send msg w))) = 0.
Proof.
  intros Hfree Hmax. rewrite (Send_free w msg Hfree). simpl.
  rewrite Hmax. reflexivity.
Qed.

(** C1 (as amended). On a new stream the counter is 0.  Whatever calls are
    made on it and whatever the codec answers, every call returns, the
    envelopes of the Send calls carry 0, 1, ..., N-1 in call order, where N
    counts all the Send calls made, failed ones included, and afterwards the
    counter holds N (modulo 2^64): one increment per Send call, none by any
    other call.  The numbers are exact for up to 2^64 Sends. *)
Theorem C1_every_Send_call_takes_the_next_number
    (req : Request.t V) (cdc : serverCodec.t V C H) (ctx : Ctx) (c : C)
    (os : list (op V)) :
  Z.of_nat (count_sends os) <= uint64_modulus ->
  seq (stream (start req cdc ctx c)) = 0 /\
  exists rs w',
    run_ops os (start req cdc ctx c) = Ret rs w' /\
    sent_seqs (calls w') = map Z.of_nat (List.seq 0 (count_sends os)) /\
    seq (stream w') = Z.of_nat (count_sends os) mod uint64_modulus.
Proof.
  intros Hbound. split; [reflexivity|].
  destruct (run_ops_numbers os (start req cdc ctx c) 0 eq_refl eq_refl)
    as (rs & w' & E & _ & Hseq & Hsent).
  exists rs, w'. repeat split; [exact E | | exact Hseq].
  rewrite Hsent. simpl.
  apply map_ext_in. intros i Hi. apply in_seq in Hi.
  apply Z.mod_small. unfold uint64_modulus in *. lia.
Qed.

(** C3 (as amended). On a new stream for a request with service "Greeter"
    and method "Hello", the first [Send] hands the codec's [WriteResponse]
    an envelope whose [ServiceMethod] is the request's method, "Hello", and
    whose [Seq] is 0, together with the message and the flag false; the
    service name is not put in the envelope.  [Send] returns the codec's
    answer and the counter is 1 afterwards. *)
Theorem C3_first_Send_envelope
    (cdc : serverCodec.t V C H) (ctx : Ctx) (c : C) (msg : option V)
    (contentType : string) (body : option V) (streamed : bool) :
  let w :=
    start (Request.mk "Greeter" "Hello" contentType body streamed) cdc ctx c in
  let answer :=
    serverCodec.WriteResponse cdc (response.mk "Hello" 0) msg false c in
  Send msg w =
    Ret (fst answer)
        (mkWorld
           (mk sync.unlocked 1 false None
               (Request.mk "Greeter" "Hello" contentType body streamed) cdc ctx)
           (snd answer)
           (WriteResponseCall (response.mk "Hello" 0) msg false
            :: match fst answer with
               | Some e => [LogPrintln "rpc: writing response:" (Some e)]
               | None => []
               end)).
Proof.
  intros w answer.
  rewrite (Send_free w msg eq_refl). reflexivity.
Qed.

End StreamFacts.

(** ** The stream over the scripted codec *)

Section StreamExamples.

Import rpcStream.

(** C1, at a run of three Sends of which the second fails, with a Recv and
    an Error in between. *)
Lemma C1_numbers_witness :
  Z.of_nat (count_sends
              [OpSend (Some "a"); OpRecv None; OpSend (Some "b");
               OpError; OpSend (Some "c")]) <= uint64_modulus /\
  exists rs w',
    rpcStream.run_ops tt
      [OpSend (Some "a"); OpRecv None; OpSend (Some "b");
       OpError; OpSend (Some "c")]
      (fake.world_of (fake.mkConn [] [] [None; Some "broken pipe"] [])) =
      Ret rs w' /\
    sent_seqs (calls w') = [0; 1; 2] /\
    seq (stream w') = 3.
Proof.
  split; [vm_compute; discriminate|].
  destruct (C1_every_Send_call_takes_the_next_number tt fake.greeter fake.codec
              tt (fake.mkConn [] [] [None; Some "broken pipe"] [])
              [OpSend (Some "a"); OpRecv None; OpSend (Some "b");
               OpError; OpSend (Some "c")])
    as (_ & rs & w' & E & Hsent & Hseq).
  - vm_compute; discriminate.
  - exists rs, w'. repeat split; assumption.
Defined.

(** C1 as the specification words it fails: a Send whose write fails has
    taken a number, so the one successful Send of this run carries 1, not 0. *)
Lemma C1_failed_Send_takes_a_number :
  let w := fake.world_of (fake.mkConn [] [] [Some "broken pipe"] []) in
  let o := rpcStream.run_ops tt [OpSend (Some "a"); OpSend (Some "b")] w in
  returned o = Some [RSend (Some "broken pipe"); RSend None] /\
  successful_seqs_of o = [1] /\
  seq (stream (final o)) = 2 /\
  ~ numbered_from_zero (successful_seqs_of o).
Proof.
  repeat split; try reflexivity.
  unfold numbered_from_zero. vm_compute. discriminate.
Qed.

(** C2, on the three paths: header error, body error, both reads succeed. *)
Lemma C2_paths_witness :
  let eof := fake.world_of (fake.mkConn [Some "EOF"] [] [] []) in
  let short := fake.world_of (fake.mkConn [] [Some "unexpected EOF"] [] []) in
  let ok := fake.world_of fake.quiet in
  (free eof /\
   returned (rpcStream.Recv tt (Some "") eof) = Some (Some "", Some "EOF") /\
   count_calls is_discard
     (calls_since eof (final (rpcStream.Recv tt (Some "") eof))) = 1%nat) /\
  (free short /\
   option_map snd (returned (rpcStream.Recv tt (Some "") short)) =
     Some (Some "unexpected EOF") /\
   count_calls is_discard
     (calls_since short (final (rpcStream.Recv tt (Some "") short))) = 0%nat) /\
  (free ok /\
   option_map snd (returned (rpcStream.Recv tt (Some "") ok)) = Some None).
Proof.
  intros eof short ok.
  split; [|split].
  - split; [reflexivity|].
    destruct (C2_Recv_header_body_paths tt eof (Some "") eq_refl) as (Hhdr & _).
    destruct (Hhdr "EOF" eq_refl) as (_ & _ & Hcount).
    split; [reflexivity | exact Hcount].
  - split; [reflexivity|].
    destruct (C2_Recv_header_body_paths tt short (Some "") eq_refl)
      as (_ & Hbody & _).
    destruct (Hbody "unexpected EOF" eq_refl eq_refl) as (Hret & _ & Hcount).
    split; [exact Hret | apply Hcount; discriminate].
  - split; [reflexivity|].
    destruct (C2_Recv_header_body_paths tt ok (Some "") eq_refl)
      as (_ & _ & Hok).
    destruct (Hok eq_refl eq_refl) as (Hret & _). exact Hret.
Defined.

(** C3 as the specification words it fails: the envelope of the first Send
    is the same for the service "Greeter" and for any other service with a
    method "Hello", so no reader of the envelope can tell the service. *)
Lemma C3_envelope_does_not_carry_the_service :
  let first_envelope (req : Request.t string) :=
    envelopes
      (calls (final (Send (Some "hi") (start (H := unit) req fake.codec tt fake.quiet)))) in
  first_envelope (Request.mk "Greeter" "Hello" "" None false) =
    [response.mk "Hello" 0] /\
  first_envelope (Request.mk "Farewell" "Hello" "" None false) =
    [response.mk "Hello" 0] /\
  ~ (exists service_of : response.t -> string,
        forall req, map service_of (first_envelope req) = [Request.Service req]).
Proof.
  intros first_envelope.
  split; [reflexivity | split; [reflexivity|]].
  intros (service_of & Hall).
  pose proof (Hall (Request.mk "Greeter" "Hello" "" None false)) as Hg.
  pose proof (Hall (Request.mk "Farewell" "Hello" "" None false)) as Hf.
  vm_compute in Hg, Hf. congruence.
Qed.

(** C4 on the code.  A header read fails with "EOF": [Recv] returns the
    error, and [Error()] called next returns nil, because no method of the
    stream assigns the [err] field. *)
Theorem C4_Recv_error_is_not_left_in_Error :
  let w := fake.world_of (fake.mkConn [Some "EOF"] [] [] []) in
  let after := final (rpcStream.Recv tt (Some "") w) in
  returned (rpcStream.Recv tt (Some "") w) = Some (Some "", Some "EOF") /\
  returned (Error after) = Some None /\
  err (stream after) = None.
Proof. repeat split. Qed.

(** C5, at a Send whose write fails. *)
Lemma C5_failed_Send_witness :
  let w := fake.world_of (fake.mkConn [] [] [Some "broken pipe"] []) in
  free w /\
  returned (Send (Some "a") w) = Some (Some "broken pipe") /\
  returned (Error (final (Send (Some "a") w))) = returned (Error w).
Proof.
  intros w. split; [reflexivity|].
  destruct (C5_Send_does_not_record_error w (Some "a") eq_refl)
    as (Hret & _ & Herr & _).
  split; [exact Hret | exact Herr].
Defined.

(** C6, at a codec whose [Close] fails the first time. *)
Lemma C6_failing_Close_witness :
  let w := fake.world_of (fake.mkConn [] [] [] [Some "already closed"]) in
  free w /\
  returned (Close w) = Some (Some "already closed") /\
  closed (stream (final (Close w))) = true /\
  closed (stream (final (Close (final (Close w))))) = true /\
  calls_since w (final (Close (final (Close w)))) = [CloseCall; CloseCall].
Proof.
  intros w. split; [reflexivity|].
  destruct (C6_Close_marks_closed w eq_refl)
    as (Hret & Hcl1 & _ & _ & _ & Hcl2 & _ & Hcalls).
  repeat split; assumption.
Defined.

(** C10, at a Recv whose header read fails. *)
Lemma C10_failed_Recv_witness :
  let w := fake.world_of (fake.mkConn [Some "EOF"] [] [] []) in
  free w /\
  stream (final (rpcStream.Recv tt (Some "") w)) = stream w /\
  seq (stream (final (rpcStream.run_op tt (OpRecv (Some "")) w))) = 0.
Proof.
  intros w. split; [reflexivity|].
  destruct (C10_only_Send_and_Close_change_the_stream tt w eq_refl)
    as (Hrecv & _ & _ & _ & Hseq & _).
  destruct (Hrecv (Some "")) as (res & _ & Hstream).
  split; [exact Hstream | exact (Hseq (OpRecv (Some "")) eq_refl)].
Defined.

End StreamExamples.

(** * Properties of the default server *)

Section ServerFacts.

Import server.

Context {S options Handler Subscriber V : Type}.
Variable options_Name : options -> string.
Variable options_Id : options -> string.
Variable impl : Server.t S options Handler Subscriber V.
Variable newRpcServer : list (options -> options) -> S.

Local Abbreviation pkg := (server.pkg S).
Local Abbreviation Start := (server.Start options_Name options_Id impl).
Local Abbreviation Run := (server.Run options_Name options_Id impl).
Local Abbreviation Init := (server.Init impl newRpcServer).

Ltac step_package :=
  unfold server.Run, server.Start, server.Stop, server.Init, server.Config,
    server.Handle, server.Subscribe, server.Register, server.Deregister,
    server.String, server.NewHandler, server.NewSubscriber,
    DefaultServer_Config, DefaultServer_Init, DefaultServer_Handle,
    DefaultServer_NewHandler, DefaultServer_NewSubscriber,
    DefaultServer_Subscribe, DefaultServer_Register, DefaultServer_Deregister,
    DefaultServer_Start, DefaultServer_Stop, DefaultServer_String,
    method_call, log_Infof, signal_Notify, chan_recv, emit, bind, ret;
  simpl.

Ltac close_case :=
  repeat split; intros;
  repeat match goal with
         | E : Some _ = Some _ |- _ => injection E as E; subst
         | E : Some _ = None |- _ => discriminate E
         | E : None = Some _ |- _ => discriminate E
         | E : _ :: _ = [] |- _ => discriminate E
         | E : [] = _ :: _ |- _ => discriminate E
         | E : _ :: _ = _ :: _ |- _ => injection E as ? ?; subst
         | Hin : In _ _ |- _ => simpl in Hin; intuition discriminate
         end;
  try reflexivity.

Lemma events_since_app (p p' : pkg) (new : list event) :
  trace p' = trace p ++ new -> events_since p p' = new.
Proof.
  unfold events_since. intros ->.
  rewrite skipn_app, skipn_all, Nat.sub_diag. reflexivity.
Qed.

(** C7 (as amended). The default server exists from the start: the
    package's variable initialiser builds it with no options, before any
    event.  [Init] builds a server from its options only when
    [DefaultServer] is nil, and in both cases then calls the instance's
    [Init] with the options; an instance that exists is kept and only
    reconfigured.  Every other package-level function that uses the default
    server builds nothing: on a nil [DefaultServer] it panics and leaves it
    nil. *)
Theorem C7_default_server_is_built_at_start_and_kept
    (sigs : list syscall.Signal) (opt : list (options -> options)) (p : pkg)
    (h : Handler) (sb : Subscriber) (topic : string) (v : option V) :
  pkg_init newRpcServer sigs = mkPkg (Some (newRpcServer [])) sigs [] /\
  Init opt p =
    Ret tt
      (mkPkg
         (Some (Server.Init impl opt
                  match DefaultServer p with
                  | Some s => s
                  | None => newRpcServer opt
                  end))
         (signals p) (trace p ++ [MethodCall mInit])) /\
  panics_on_nil (server.Config impl) /\
  panics_on_nil (server.NewSubscriber impl topic v) /\
  panics_on_nil (server.NewHandler impl v) /\
  panics_on_nil (server.Handle impl h) /\
  panics_on_nil (server.Subscribe impl sb) /\
  panics_on_nil (server.Register impl) /\
  panics_on_nil (server.Deregister impl) /\
  panics_on_nil Start /\
  panics_on_nil (server.Stop impl) /\
  panics_on_nil (server.String impl) /\
  panics_on_nil Run.
Proof.
  split; [reflexivity | split].
  - destruct p as [[s|] sg tr]; reflexivity.
  - unfold panics_on_nil.
    repeat match goal with |- _ /\ _ => split end;
      intros sg tr; eexists; split; reflexivity.
Qed.

(** C8. Each package-level function returns what the method of the same
    name returns on the default server, for every argument and every state
    of the instance, and leaves the instance as that method leaves it; on a
    nil [DefaultServer] both panic.  [Start] and [Stop] write a log line
    (and [Start] reads the configuration for it) before the call. *)
Theorem C8_package_functions_delegate (h : Handler) (sb : Subscriber) :
  delegates (server.Config impl) (fun s => (Server.Config impl s, s)) /\
  delegates (server.Handle impl h) (Server.Handle impl h) /\
  delegates (server.Subscribe impl sb) (Server.Subscribe impl sb) /\
  delegates (server.Register impl) (Server.Register impl) /\
  delegates (server.Deregister impl) (Server.Deregister impl) /\
  delegates Start (Server.Start impl) /\
  delegates (server.Stop impl) (Server.Stop impl) /\
  delegates (server.String impl) (Server.String impl).
Proof.
  unfold delegates.
  repeat match goal with |- _ /\ _ => split end;
    intros [[s|] sg tr]; step_package;
    try (repeat split; reflexivity);
    eexists; repeat split.
Qed.

(** [Run] from a state where the default server exists, in terms of what
    the methods answer. *)
Lemma Run_unfolded (s : S) (sg : list syscall.Signal) (tr : list event) :
  let cfg := Server.Config impl s in
  let started := Server.Start impl s in
  let registered := Server.Register impl (snd started) in
  let deregistered := Server.Deregister impl (snd registered) in
  let stopped := Server.Stop impl (snd deregistered) in
  let to_start :=
    [MethodCall mConfig;
     Infof "Starting server %s id %s"
       [ArgString (options_Name cfg); ArgString (options_Id cfg)];
     MethodCall mStart] in
  let to_wait :=
    to_start
    ++ [MethodCall mRegister;
        SignalNotify [syscall.SIGTERM; syscall.SIGINT; syscall.SIGKILL]] in
  Run (mkPkg (Some s) sg tr) =
    match fst started with
    | Some e => Ret (Some e) (mkPkg (Some (snd started)) sg (tr ++ to_start))
    | None =>
        match fst registered with
        | Some e =>
            Ret (Some e)
                (mkPkg (Some (snd registered)) sg
                   (tr ++ to_start ++ [MethodCall mRegister]))
        | None =>
            match sg with
            | [] => Blocked (mkPkg (Some (snd registered)) [] (tr ++ to_wait))
            | got :: rest =>
                let to_deregister :=
                  to_wait
                  ++ [ChanRecv got;
                      Infof "Received signal %s" [ArgSignal got];
                      MethodCall mDeregister] in
                match fst deregistered with
                | Some e =>
                    Ret (Some e)
                        (mkPkg (Some (snd deregistered)) rest
                           (tr ++ to_deregister))
                | None =>
                    Ret (fst stopped)
                        (mkPkg (Some (snd stopped)) rest
                           (tr ++ to_deregister
                            ++ [Infof "Stopping server" []; MethodCall mStop]))
                end
            end
        end
    end.
Proof.
  intros cfg started registered deregistered stopped to_start to_wait.
  subst cfg started registered deregistered stopped to_start to_wait.
  step_package.
  destruct (Server.Start impl s) as [[e|] s1]; simpl;
    [rewrite <- !app_assoc; reflexivity|].
  destruct (Server.Register impl s1) as [[e|] s2]; simpl;
    [rewrite <- !app_assoc; reflexivity|].
  destruct sg as [|got rest]; simpl;
    [rewrite <- !app_assoc; reflexivity|].
  destruct (Server.Deregister impl s2) as [[e|] s3]; simpl;
    [rewrite <- !app_assoc; reflexivity|].
  destruct (Server.Stop impl s3) as [e s4]; simpl.
  rewrite <- !app_assoc. reflexivity.
Qed.

(** C9. With a default server in place, [Run] starts it, registers it,
    waits for a signal, deregisters it and stops it, in that order: the
    lifecycle steps of any run are an initial part of that order, and all
    five are taken when every call succeeds and a signal arrives.  If
    [Start] returns an error, [Run] returns it having made no [Register]
    call; if [Register] returns an error, [Run] returns it without having
    asked for or received a signal.  A [Register] call is only ever made
    after [Start] returned nil. *)
Theorem C9_Run_starts_registers_waits_deregisters_stops (p : pkg) (s : S) :
  DefaultServer p = Some s ->
  let cfg := Server.Config impl s in
  let started := Server.Start impl s in
  let registered := Server.Register impl (snd started) in
  let deregistered := Server.Deregister impl (snd registered) in
  let stopped := Server.Stop impl (snd deregistered) in
  let to_start :=
    [MethodCall mConfig;
     Infof "Starting server %s id %s"
       [ArgString (options_Name cfg); ArgString (options_Id cfg)];
     MethodCall mStart] in
  let o := Run p in
  let new := events_since p (final o) in
  (exists k, lifecycle new = firstn k run_order) /\
  (forall got rest,
      fst started = None -> fst registered = None ->
      signals p = got :: rest -> fst deregistered = None ->
      returned o = Some (fst stopped) /\
      lifecycle new = run_order /\
      DefaultServer (final o) = Some (snd stopped)) /\
  (forall e,
      fst started = Some e ->
      returned o = Some (Some e) /\
      new = to_start /\
      signals (final o) = signals p) /\
  (forall e,
      fst started = None -> fst registered = Some e ->
      returned o = Some (Some e) /\
      new = to_start ++ [MethodCall mRegister] /\
      signals (final o) = signals p) /\
  (fst started = None -> fst registered = None -> signals p = [] ->
      returned o = None /\ o = Blocked (final o) /\
      lifecycle new = [StepStart; StepRegister]) /\
  (forall got rest e,
      fst started = None -> fst registered = None ->
      signals p = got :: rest -> fst deregistered = Some e ->
      returned o = Some (Some e) /\
      lifecycle new = [StepStart; StepRegister; StepWait; StepDeregister]) /\
  (In (MethodCall mRegister) new -> fst started = None).
Proof.
  destruct p as [d sg tr]. simpl. intros ->.
  rewrite Run_unfolded.
  destruct (fst (Server.Start impl s)) as [e1|] eqn:E1.
  { simpl. erewrite events_since_app by reflexivity.
    split; [exists 1%nat; reflexivity|].
    close_case. }
  destruct (fst (Server.Register impl (snd (Server.Start impl s))))
    as [e2|] eqn:E2.
  { simpl. erewrite events_since_app by reflexivity.
    split; [exists 2%nat; reflexivity|].
    close_case. }
  destruct sg as [|got rest].
  { simpl. erewrite events_since_app by reflexivity.
    split; [exists 2%nat; reflexivity|].
    close_case. }
  destruct (fst (Server.Deregister impl
                   (snd (Server.Register impl (snd (Server.Start impl s))))))
    as [e3|] eqn:E3.
  { simpl. erewrite events_since_app by reflexivity.
    split; [exists 4%nat; reflexivity|].
    close_case. }
  simpl. erewrite events_since_app by reflexivity.
  split; [exists 5%nat; reflexivity|].
  close_case.
Qed.

End ServerFacts.

(** ** The package over the scripted server *)

Section ServerExamples.

Import server.

(** C7 as the specification words it fails: the default server is there
    before anything has used the package, and a first use through a
    delegating function, made while [DefaultServer] is nil, builds nothing. *)
Lemma C7_default_server_is_not_built_on_first_use :
  DefaultServer (pkg_init fake.newRpcServer []) <> None /\
  trace (pkg_init fake.newRpcServer []) = [] /\
  server.Config fake.server (mkPkg None [] []) = Panic (mkPkg None [] []) /\
  DefaultServer (final (server.Config fake.server (mkPkg None [] []))) = None.
Proof. split; [discriminate | repeat split]. Qed.

(** C9, at a run that receives SIGTERM and at one whose [Start] fails. *)
Lemma C9_Run_witness :
  let ok := pkg_init fake.newRpcServer [syscall.SIGTERM] in
  let bad :=
    mkPkg (Some (fake.mkSrv "go-server" [Some "address in use"] [] [] []))
          [syscall.SIGTERM] [] in
  (DefaultServer ok = Some (fake.newRpcServer []) /\
   returned (server.Run fst snd fake.server ok) = Some None /\
   lifecycle (events_since ok (final (server.Run fst snd fake.server ok))) =
     run_order) /\
  (returned (server.Run fst snd fake.server bad) =
     Some (Some "address in use") /\
   lifecycle (events_since bad (final (server.Run fst snd fake.server bad))) =
     [StepStart]).
Proof.
  intros ok bad. split.
  - split; [reflexivity|].
    destruct (C9_Run_starts_registers_waits_deregisters_stops
                fst snd fake.server ok (fake.newRpcServer []) eq_refl)
      as (_ & Hfull & _).
    destruct (Hfull syscall.SIGTERM [] eq_refl eq_refl eq_refl eq_refl)
      as (Hret & Horder & _).
    split; [exact Hret | exact Horder].
  - destruct (C9_Run_starts_registers_waits_deregisters_stops
                fst snd fake.server bad _ eq_refl)
      as (_ & _ & Hstart & _).
    destruct (Hstart "address in use" eq_refl) as (Hret & Hnew & _).
    split; [exact Hret | rewrite Hnew; reflexivity].
Defined.

End ServerExamples.

(** * Further properties of the stream *)

Section StreamRuns.

Import rpcStream.

Context {V Ctx C H : Type}.
Variable request_zero : H.

Local Abbreviation world := (rpcStream.world V Ctx C H).
Local Abbreviation Recv := (rpcStream.Recv request_zero).
Local Abbreviation run_op := (rpcStream.run_op request_zero).
Local Abbreviation run_ops := (rpcStream.run_ops request_zero).
Local Abbreviation header_answer := (rpcStream.header_answer request_zero).
Local Abbreviation body_answer := (rpcStream.body_answer request_zero).

Lemma count_calls_app (p : call V -> bool) (a b : list (call V)) :
  count_calls p (a ++ b) = (count_calls p a + count_calls p b)%nat.
Proof. unfold count_calls. rewrite filter_app, length_app. reflexivity. Qed.

Lemma count_ops_cons (p : op V -> bool) (o : op V) (os : list (op V)) :
  count_ops p (o :: os) = ((if p o then 1 else 0) + count_ops p os)%nat.
Proof. unfold count_ops. simpl. destruct (p o); reflexivity. Qed.

Lemma count_results_cons (p : result V Ctx -> bool) (r : result V Ctx)
    (rs : list (result V Ctx)) :
  count_results p (r :: rs) = ((if p r then 1 else 0) + count_results p rs)%nat.
Proof. unfold count_results. simpl. destruct (p r); reflexivity. Qed.

(** What one call on a free stream adds to the calls made, by kind, and what
    it leaves of the struct. *)
Lemma run_op_account (w : world) (o : op V) :
  free w ->
  exists r w' new,
    run_op o w = Ret r w' /\ free w' /\ calls w' = calls w ++ new /\
    (count_calls is_write new = if is_send o then 1 else 0)%nat /\
    (count_calls is_log new = if failed_send r then 1 else 0)%nat /\
    (count_calls is_header_read new = if is_recv o then 1 else 0)%nat /\
    (count_calls is_body_read new = if is_recv o then 1 else 0)%nat /\
    (count_calls is_close_call new = if op_is_close o then 1 else 0)%nat /\
    Forall (well_addressed (request (stream w))) new /\
    reads_agree (context (stream w)) (request (stream w)) (err (stream w)) r /\
    request (stream w') = request (stream w) /\
    codec (stream w') = codec (stream w) /\
    context (stream w') = context (stream w) /\
    err (stream w') = err (stream w) /\
    closed (stream w') = (closed (stream w) || op_is_close o)%bool.
Proof.
  intros Hfree.
  assert (Hmu : RWMutex (stream w) = sync.unlocked) by exact Hfree.
  destruct o as [| |msg|msg| |]; unfold rpcStream.run_op, bind.
  - exists (RContext (context (stream w))), w, [].
    rewrite app_nil_r, orb_false_r. simpl. auto 20.
  - exists (RRequest (request (stream w))), w, [].
    rewrite app_nil_r, orb_false_r. simpl. auto 20.
  - rewrite (Send_free w msg Hfree).
    destruct (fst (write_answer w msg)) as [e|]; eexists _, _, _;
      (split; [reflexivity|]); unfold free; simpl; rewrite orb_false_r;
      repeat split; auto; repeat constructor.
  - rewrite (Recv_free request_zero w msg Hfree).
    destruct (snd (fst (header_answer w))) as [e|]; eexists _, _, _;
      (split; [reflexivity|]); unfold free; simpl; rewrite orb_false_r;
      repeat split; auto; repeat constructor.
  - rewrite (Error_free w Hfree).
    exists (RError (err (stream w))), w, [].
    rewrite app_nil_r, orb_false_r. simpl. auto 20.
  - rewrite (Close_free w Hfree). eexists _, _, _.
    split; [reflexivity|]. unfold free; simpl. rewrite orb_true_r.
    repeat split; auto; repeat constructor.
Qed.

(** The same for a run of calls. *)
Lemma run_ops_account (os : list (op V)) :
  forall w : world,
    free w ->
    exists rs w' new,
      run_ops os w = Ret rs w' /\ free w' /\ calls w' = calls w ++ new /\
      length rs = length os /\
      count_calls is_write new = count_ops is_send os /\
      count_calls is_log new = count_results failed_send rs /\
      count_calls is_header_read new = count_ops is_recv os /\
      count_calls is_body_read new = count_ops is_recv os /\
      count_calls is_close_call new = count_ops op_is_close os /\
      Forall (well_addressed (request (stream w))) new /\
      Forall (reads_agree (context (stream w)) (request (stream w))
                (err (stream w))) rs /\
      request (stream w') = request (stream w) /\
      codec (stream w') = codec (stream w) /\
      context (stream w') = context (stream w) /\
      err (stream w') = err (stream w) /\
      closed (stream w') = (closed (stream w) || existsb op_is_close os)%bool.
Proof.
  induction os as [|o os IH]; intros w Hfree.
  - exists [], w, []. simpl. rewrite app_nil_r, orb_false_r. auto 20.
  - destruct (run_op_account w o Hfree)
      as (r & w1 & new1 & E1 & Hfree1 & Hc1 & Hw1 & Hl1 & Hh1 & Hb1 & Hx1
          & Ha1 & Hr1 & Hrq1 & Hcd1 & Hcx1 & Her1 & Hcl1).
    destruct (IH w1 Hfree1)
      as (rs & w2 & new2 & E2 & Hfree2 & Hc2 & Hlen & Hw2 & Hl2 & Hh2 & Hb2
          & Hx2 & Ha2 & Hr2 & Hrq2 & Hcd2 & Hcx2 & Her2 & Hcl2).
    rewrite Hrq1 in Ha2. rewrite Hrq1, Hcx1, Her1 in Hr2.
    exists (r :: rs), w2, (new1 ++ new2).
    rewrite (run_ops_cons request_zero), E1, E2.
    rewrite !count_calls_app, !count_ops_cons, count_results_cons.
    rewrite Hw1, Hw2, Hl1, Hl2, Hh1, Hh2, Hb1, Hb2, Hx1, Hx2.
    repeat split; try reflexivity; try assumption.
    + rewrite Hc2, Hc1, app_assoc. reflexivity.
    + simpl. rewrite Hlen. reflexivity.
    + apply Forall_app. split; assumption.
    + constructor; assumption.
    + congruence.
    + congruence.
    + congruence.
    + congruence.
    + rewrite Hcl2, Hcl1. simpl. rewrite orb_assoc. reflexivity.
Qed.

Ltac account os w Hfree :=
  destruct (run_ops_account os w Hfree)
    as (rs & w' & new & E & Hfree' & Hcalls & Hlen & Hwr & Hlog & Hhd & Hbd
        & Hcls & Haddr & Hreads & Hrq & Hcd & Hcx & Her & Hclosed);
  rewrite E; simpl; try rewrite (calls_since_app w w' new Hcalls).



(** X3. The [closed] flag guards nothing: whatever its value, [Send] and
    [Recv] return the same results, make the same calls on the codec, leave
    the codec in the same state and (for [Send]) take the same number; the
    flag itself is left as it was. *)
Theorem closed_flag_guards_nothing (w : world) (b : bool) (msg : option V) :
  free w ->
  let wb := with_closed b w in
  (returned (Send msg wb) = returned (Send msg w) /\
   calls (final (Send msg wb)) = calls (final (Send msg w)) /\
   conn (final (Send msg wb)) = conn (final (Send msg w)) /\
   seq (stream (final (Send msg wb))) = seq (stream (final (Send msg w))) /\
   closed (stream (final (Send msg wb))) = b) /\
  (returned (Recv msg wb) = returned (Recv msg w) /\
   calls (final (Recv msg wb)) = calls (final (Recv msg w)) /\
   conn (final (Recv msg wb)) = conn (final (Recv msg w)) /\
   closed (stream (final (Recv msg wb))) = b).
Proof.
  intros Hfree wb.
  assert (Hfreeb : free wb) by exact Hfree.
  rewrite (Send_free wb msg Hfreeb), (Send_free w msg Hfree).
  rewrite (Recv_free request_zero wb msg Hfreeb),
          (Recv_free request_zero w msg Hfree).
  change (rpcStream.header_answer request_zero wb) with (header_answer w).
  change (rpcStream.body_answer request_zero wb) with (body_answer w).
  split.
  - repeat split.
  - destruct (snd (fst (header_answer w))); repeat split.
Qed.

(** X4. In any run of calls on a free stream the codec's [WriteResponse]
    is called exactly once per [Send], and a line is logged exactly once
    per [Send] that returned an error: never for a successful one, never by
    another method. *)
Theorem one_write_per_Send_one_log_line_per_failure
    (w : world) (os : list (op V)) :
  free w ->
  exists rs,
    returned (run_ops os w) = Some rs /\
    count_calls is_write (calls_since w (final (run_ops os w))) =
      count_ops is_send os /\
    count_calls is_log (calls_since w (final (run_ops os w))) =
      count_results failed_send rs.
Proof.
  intros Hfree. account os w Hfree. exists rs. auto.
Qed.

(** X5. In any run of calls on a free stream every [Recv] makes exactly
    one header read and exactly one body read (the real one or the discard),
    and no other method reads: header reads and body reads stay paired. *)
Theorem header_and_body_reads_stay_paired (w : world) (os : list (op V)) :
  free w ->
  count_calls is_header_read (calls_since w (final (run_ops os w))) =
    count_ops is_recv os /\
  count_calls is_body_read (calls_since w (final (run_ops os w))) =
    count_ops is_recv os.
Proof.
  intros Hfree. account os w Hfree. auto.
Qed.

(** X6. The codec's [Close] is called exactly once per [Close] of the
    stream and by no other method, whatever errors [Send] and [Recv] met;
    and [closed] never goes back to false: after a run it is true exactly
    when it was true before or the run contains a [Close]. *)
Theorem codec_closed_only_by_Close_and_closed_is_monotone
    (w : world) (os : list (op V)) :
  free w ->
  count_calls is_close_call (calls_since w (final (run_ops os w))) =
    count_ops op_is_close os /\
  closed (stream (final (run_ops os w))) =
    (closed (stream w) || existsb op_is_close os)%bool.
Proof.
  intros Hfree. account os w Hfree. auto.
Qed.

(** X7. In any run of calls on a free stream, every envelope handed to
    [WriteResponse] names the method of the stream's request, and the flag
    given to [WriteResponse] and to [ReadRequestHeader] is always false. *)
Theorem codec_arguments_are_fixed (w : world) (os : list (op V)) :
  free w ->
  Forall (well_addressed (request (stream w)))
         (calls_since w (final (run_ops os w))).
Proof.
  intros Hfree. account os w Hfree. assumption.
Qed.

(** X8. No method assigns [request], [codec], [context] or [err]: after any
    run of calls on a free stream the four fields are what they were, and
    every [Context()], [Request()] and [Error()] of the run returned the
    value the field had at the start. *)
Theorem request_codec_context_err_never_change (w : world) (os : list (op V)) :
  free w ->
  let w' := final (run_ops os w) in
  request (stream w') = request (stream w) /\
  codec (stream w') = codec (stream w) /\
  context (stream w') = context (stream w) /\
  err (stream w') = err (stream w) /\
  exists rs,
    returned (run_ops os w) = Some rs /\
    Forall (reads_agree (context (stream w)) (request (stream w))
              (err (stream w))) rs.
Proof.
  intros Hfree. account os w Hfree.
  repeat split; try assumption. exists rs. auto.
Qed.

Lemma map_seq_from (f : nat -> Z) (n : nat) :
  forall k : nat,
    map f (List.seq k n) = map (fun i => f (k + i)%nat) (List.seq 0 n).
Proof.
  induction n as [|n IH]; intros k; [reflexivity|].
  simpl. rewrite Nat.add_0_r. f_equal.
  rewrite IH, <- seq_shift, map_map.
  apply map_ext. intros i. f_equal. lia.
Qed.

(** X9. The sequence numbers wrap around: from a free stream whose counter
    holds [n], the Sends of any run carry [n], [n+1], ... taken modulo 2^64,
    so the Send after number 2^64 - 1 carries 0, and the counter ends at
    [n] plus the number of Sends, modulo 2^64. *)
Theorem sequence_numbers_wrap_modulo_2_64 (w : world) (os : list (op V)) :
  free w ->
  0 <= seq (stream w) < uint64_modulus ->
  let w' := final (run_ops os w) in
  sent_seqs (calls_since w w') =
    map (fun i => (seq (stream w) + Z.of_nat i) mod uint64_modulus)
        (List.seq 0 (count_sends os)) /\
  seq (stream w') =
    (seq (stream w) + Z.of_nat (count_sends os)) mod uint64_modulus.
Proof.
  intros Hfree Hrange w'. subst w'.
  assert (Hk : seq (stream w) =
               Z.of_nat (Z.to_nat (seq (stream w))) mod uint64_modulus).
  { rewrite Z2Nat.id by lia. symmetry. apply Z.mod_small. exact Hrange. }
  destruct (run_ops_numbers request_zero os w _ Hfree Hk)
    as (rs & w1 & E & _ & Hseq & Hsent).
  destruct (run_ops_account os w Hfree)
    as (rs' & w2 & new & E' & _ & Hcalls & _).
  rewrite E in E'. injection E' as <- <-.
  rewrite E. simpl. rewrite (calls_since_app w w1 new Hcalls).
  rewrite Hcalls, sent_seqs_app in Hsent.
  apply app_inv_head in Hsent.
  split.
  - rewrite Hsent, map_seq_from. apply map_ext. intros i.
    f_equal. rewrite Nat2Z.inj_add, Z2Nat.id by lia. reflexivity.
  - rewrite Hseq. f_equal. rewrite Nat2Z.inj_add, Z2Nat.id by lia.
    reflexivity.
Qed.

End StreamRuns.

(** * Further properties of the default server *)

Section ServerRuns.

Import server.

Context {S options Handler Subscriber V : Type}.
Variable options_Name : options -> string.
Variable options_Id : options -> string.
Variable impl : Server.t S options Handler Subscriber V.
Variable newRpcServer : list (options -> options) -> S.

Local Abbreviation pkg := (server.pkg S).
Local Abbreviation Run := (server.Run options_Name options_Id impl).
Local Abbreviation Init := (server.Init impl newRpcServer).
Local Abbreviation run_call :=
  (server.run_call options_Name options_Id impl newRpcServer).
Local Abbreviation run_calls :=
  (server.run_calls options_Name options_Id impl newRpcServer).
Local Abbreviation pkg_call := (server.pkg_call options Handler Subscriber V).

Ltac settle :=
  repeat match goal with
         | |- _ /\ _ => split
         | |- _ <-> _ => split
         | |- _ -> _ => intro
         end;
  repeat match goal with
         | H : _ /\ _ |- _ => destruct H
         end;
  try discriminate; try contradiction; try reflexivity;
  try (simpl in *; intuition (discriminate || congruence)).

(** X10. With a default server in place, [Run] returns nil exactly when
    [Start], [Register], [Deregister] and [Stop] all returned nil and a
    signal arrived in between. *)
Theorem Run_returns_nil_iff_every_step_succeeded (p : pkg) (s : S) :
  DefaultServer p = Some s ->
  let started := Server.Start impl s in
  let registered := Server.Register impl (snd started) in
  let deregistered := Server.Deregister impl (snd registered) in
  let stopped := Server.Stop impl (snd deregistered) in
  returned (Run p) = Some None <->
    fst started = None /\ fst registered = None /\ signals p <> [] /\
    fst deregistered = None /\ fst stopped = None.
Proof.
  destruct p as [d sg tr]. simpl. intros ->.
  rewrite (Run_unfolded options_Name options_Id impl).
  destruct (fst (Server.Start impl s)) as [e1|];
    [simpl; split; [discriminate | intros (H1 & _); discriminate]|].
  destruct (fst (Server.Register impl (snd (Server.Start impl s)))) as [e2|];
    [simpl; split; [discriminate | intros (_ & H2 & _); discriminate]|].
  destruct sg as [|got rest];
    [simpl; split; [discriminate | intros (_ & _ & H3 & _); contradiction]|].
  destruct (fst (Server.Deregister impl
                   (snd (Server.Register impl (snd (Server.Start impl s))))))
    as [e3|];
    [simpl; split; [discriminate | intros (_ & _ & _ & H4 & _); discriminate]|].
  simpl. split.
  - intros Hret. injection Hret as Hstop. repeat split; auto. discriminate.
  - intros (_ & _ & _ & _ & Hstop). rewrite Hstop. reflexivity.
Qed.

(** X11. With a default server in place, [Run] never panics; it waits for
    ever exactly when [Start] and [Register] succeeded and no signal
    arrives; and it takes the first signal, and only that one, exactly when
    it got as far as waiting. *)
Theorem Run_blocks_only_waiting_for_a_signal (p : pkg) (s : S) :
  DefaultServer p = Some s ->
  let started := Server.Start impl s in
  let registered := Server.Register impl (snd started) in
  panicked (Run p) = false /\
  (returned (Run p) = None <->
     fst started = None /\ fst registered = None /\ signals p = []) /\
  signals (final (Run p)) =
    match fst started, fst registered with
    | None, None => tl (signals p)
    | _, _ => signals p
    end.
Proof.
  destruct p as [d sg tr]. simpl. intros ->.
  rewrite (Run_unfolded options_Name options_Id impl).
  destruct (fst (Server.Start impl s)) as [e1|];
    [simpl; repeat split; try discriminate; intros (H1 & _); discriminate|].
  destruct (fst (Server.Register impl (snd (Server.Start impl s)))) as [e2|];
    [simpl; repeat split; try discriminate;
     intros (_ & H2 & _); discriminate|].
  destruct sg as [|got rest]; [simpl; repeat split|].
  destruct (fst (Server.Deregister impl
                   (snd (Server.Register impl (snd (Server.Start impl s))))))
    as [e3|]; simpl; repeat split; try discriminate;
    intros (_ & _ & H3); discriminate.
Qed.

(** X12. With a default server in place, [Run] calls [Deregister] exactly
    when [Start] and [Register] succeeded and a signal arrived, and [Stop]
    exactly when moreover [Deregister] succeeded.  So a server whose
    registration fails has been started and is not stopped by [Run], and
    one whose deregistration fails is left running. *)
Theorem Run_stops_only_after_a_clean_deregistration (p : pkg) (s : S) :
  DefaultServer p = Some s ->
  let started := Server.Start impl s in
  let registered := Server.Register impl (snd started) in
  let deregistered := Server.Deregister impl (snd registered) in
  let new := events_since p (final (Run p)) in
  calls_method mStart new /\
  (calls_method mDeregister new <->
     fst started = None /\ fst registered = None /\ signals p <> []) /\
  (calls_method mStop new <->
     fst started = None /\ fst registered = None /\ signals p <> [] /\
     fst deregistered = None).
Proof.
  destruct p as [d sg tr]. simpl. intros ->.
  rewrite (Run_unfolded options_Name options_Id impl).
  unfold calls_method.
  destruct (fst (Server.Start impl s)) as [e1|];
    [simpl; erewrite events_since_app by reflexivity; settle|].
  destruct (fst (Server.Register impl (snd (Server.Start impl s)))) as [e2|];
    [simpl; erewrite events_since_app by reflexivity; settle|].
  destruct sg as [|got rest];
    [simpl; erewrite events_since_app by reflexivity; settle|].
  destruct (fst (Server.Deregister impl
                   (snd (Server.Register impl (snd (Server.Start impl s))))))
    as [e3|];
    simpl; erewrite events_since_app by reflexivity; settle.
Qed.

(** One package-level call made while a default server is in place returns
    or waits for ever, and a default server is in place afterwards. *)
Lemma run_call_keeps_the_default_server (c : pkg_call) (p : pkg) (s : S) :
  DefaultServer p = Some s ->
  exists p' s',
    DefaultServer p' = Some s' /\
    (run_call c p = Ret tt p' \/ run_call c p = Blocked p').
Proof.
  destruct p as [d sg tr]. simpl. intros ->.
  destruct c;
    try (eexists _, _; split; cycle 1; [left; reflexivity | reflexivity]).
  unfold server.run_call, drop, bind.
  rewrite (Run_unfolded options_Name options_Id impl).
  destruct (fst (Server.Start impl s)) as [e1|];
    [eexists _, _; split; cycle 1; [left; reflexivity | reflexivity]|].
  destruct (fst (Server.Register impl (snd (Server.Start impl s)))) as [e2|];
    [eexists _, _; split; cycle 1; [left; reflexivity | reflexivity]|].
  destruct sg as [|got rest];
    [eexists _, _; split; cycle 1; [right; reflexivity | reflexivity]|].
  destruct (fst (Server.Deregister impl
                   (snd (Server.Register impl (snd (Server.Start impl s))))))
    as [e3|];
    [eexists _, _; split; cycle 1; [left; reflexivity | reflexivity] |
     eexists _, _; split; cycle 1; [left; reflexivity | reflexivity]].
Qed.

(** X13. Once a default server is in place no sequence of package-level
    calls can panic or make [DefaultServer] nil again: each call returns (or
    [Run] waits for a signal) with a default server still in place. *)
Theorem package_calls_never_lose_the_default_server
    (cs : list pkg_call) (p : pkg) (s : S) :
  DefaultServer p = Some s ->
  panicked (run_calls cs p) = false /\
  DefaultServer (final (run_calls cs p)) <> None.
Proof.
  revert p s.
  induction cs as [|c cs IH]; intros p s Hs.
  - simpl. rewrite Hs. split; [reflexivity | discriminate].
  - destruct (run_call_keeps_the_default_server c p s Hs)
      as (p' & s' & Hs' & [E|E]);
      simpl; unfold bind; rewrite E.
    + exact (IH p' s' Hs').
    + simpl. rewrite Hs'. split; [reflexivity | discriminate].
Qed.

Lemma Init_unfolded (opt : list (options -> options)) (p : pkg) :
  Init opt p =
    Ret tt
      (mkPkg
         (Some (Server.Init impl opt
                  match DefaultServer p with
                  | Some s => s
                  | None => newRpcServer opt
                  end))
         (signals p) (trace p ++ [MethodCall mInit])).
Proof. destruct p as [[s|] sg tr]; reflexivity. Qed.

(** X14. Repeated [Init] builds at most one server.  After the calls
    [Init(o1)], ..., [Init(on)] the default server is the one that was in
    place (or, when there was none, the one built from [o1]) with the
    instance's [Init] applied for [o1], ..., [on] in that order; every call
    returns. *)
Theorem repeated_Init_builds_once_and_reconfigures_in_order
    (opts : list (list (options -> options))) (p : pkg) :
  returned (run_calls (map CallInit opts) p) = Some tt /\
  DefaultServer (final (run_calls (map CallInit opts) p)) =
    match opts with
    | [] => DefaultServer p
    | o1 :: _ =>
        Some (fold_left (fun s o => Server.Init impl o s) opts
                match DefaultServer p with
                | Some s => s
                | None => newRpcServer o1
                end)
    end.
Proof.
  revert p.
  induction opts as [|o1 opts IH]; intros p; [split; reflexivity|].
  simpl. unfold bind. rewrite Init_unfolded.
  destruct (IH (mkPkg
                  (Some (Server.Init impl o1
                           match DefaultServer p with
                           | Some s => s
                           | None => newRpcServer o1
                           end))
                  (signals p) (trace p ++ [MethodCall mInit])))
    as (Hret & Hsrv).
  split; [exact Hret|].
  rewrite Hsrv. destruct opts; reflexivity.
Qed.

End ServerRuns.

(** ** Runs over the scripted codec and the scripted server *)

Section RunExamples.

Import rpcStream.
Import server.



(** X3, at a Send on a stream marked closed. *)
Lemma closed_flag_witness :
  free fake.mixed_world /\
  returned (Send (Some "a") (with_closed true fake.mixed_world)) =
    returned (Send (Some "a") fake.mixed_world) /\
  calls (final (Send (Some "a") (with_closed true fake.mixed_world))) =
    [WriteResponseCall (response.mk "Hello" 0) (Some "a") false].
Proof.
  split; [reflexivity|].
  destruct (closed_flag_guards_nothing tt fake.mixed_world true (Some "a") eq_refl)
    as ((Hret & Hcalls & _) & _).
  split; [exact Hret | rewrite Hcalls; reflexivity].
Defined.

(** X4, at the mixed run: three writes, one log line. *)
Lemma writes_and_log_lines_witness :
  free fake.mixed_world /\
  exists rs,
    returned (rpcStream.run_ops tt fake.mixed_run fake.mixed_world) = Some rs /\
    count_calls is_write
      (calls_since fake.mixed_world
         (final (rpcStream.run_ops tt fake.mixed_run fake.mixed_world))) = 3%nat /\
    count_calls is_log
      (calls_since fake.mixed_world
         (final (rpcStream.run_ops tt fake.mixed_run fake.mixed_world))) =
      count_results failed_send rs.
Proof.
  split; [reflexivity|].
  exact (one_write_per_Send_one_log_line_per_failure tt fake.mixed_world
           fake.mixed_run eq_refl).
Defined.

(** X5, at the mixed run: one Recv, one header read, one body read. *)
Lemma paired_reads_witness :
  free fake.mixed_world /\
  count_calls is_header_read
    (calls_since fake.mixed_world
       (final (rpcStream.run_ops tt fake.mixed_run fake.mixed_world))) = 1%nat /\
  count_calls is_body_read
    (calls_since fake.mixed_world
       (final (rpcStream.run_ops tt fake.mixed_run fake.mixed_world))) = 1%nat.
Proof.
  split; [reflexivity|].
  exact (header_and_body_reads_stay_paired tt fake.mixed_world fake.mixed_run eq_refl).
Defined.

(** X6, at the mixed run: one Close, and [closed] stays true after it. *)
Lemma close_calls_witness :
  free fake.mixed_world /\
  count_calls is_close_call
    (calls_since fake.mixed_world
       (final (rpcStream.run_ops tt fake.mixed_run fake.mixed_world))) = 1%nat /\
  closed (stream (final (rpcStream.run_ops tt fake.mixed_run fake.mixed_world))) = true.
Proof.
  split; [reflexivity|].
  exact (codec_closed_only_by_Close_and_closed_is_monotone tt fake.mixed_world
           fake.mixed_run eq_refl).
Defined.

(** X7, at the mixed run. *)
Lemma codec_arguments_witness :
  free fake.mixed_world /\
  Forall (well_addressed fake.greeter)
    (calls_since fake.mixed_world
       (final (rpcStream.run_ops tt fake.mixed_run fake.mixed_world))).
Proof.
  split; [reflexivity|].
  exact (codec_arguments_are_fixed tt fake.mixed_world fake.mixed_run eq_refl).
Defined.

(** X8, at the mixed run. *)
Lemma fields_never_change_witness :
  free fake.mixed_world /\
  request (stream (final (rpcStream.run_ops tt fake.mixed_run fake.mixed_world))) =
    fake.greeter /\
  err (stream (final (rpcStream.run_ops tt fake.mixed_run fake.mixed_world))) = None.
Proof.
  split; [reflexivity|].
  destruct (request_codec_context_err_never_change tt fake.mixed_world fake.mixed_run
              eq_refl) as (Hrq & _ & _ & Her & _).
  split; [exact Hrq | exact Her].
Defined.

(** X9, at two Sends from the last number: 2^64 - 1, then 0. *)
Lemma wrap_around_witness :
  free fake.last_number_world /\
  0 <= seq (stream fake.last_number_world) < uint64_modulus /\
  sent_seqs
    (calls_since fake.last_number_world
       (final (rpcStream.run_ops tt [OpSend (Some "a"); OpSend (Some "b")]
                 fake.last_number_world))) =
    [uint64_modulus - 1; 0] /\
  seq (stream
         (final (rpcStream.run_ops tt [OpSend (Some "a"); OpSend (Some "b")]
                   fake.last_number_world))) = 1.
Proof.
  assert (Hrange : 0 <= seq (stream fake.last_number_world) < uint64_modulus)
    by (vm_compute; split; [discriminate | reflexivity]).
  split; [reflexivity | split; [exact Hrange|]].
  exact (sequence_numbers_wrap_modulo_2_64 tt fake.last_number_world
           [OpSend (Some "a"); OpSend (Some "b")] eq_refl Hrange).
Defined.

(** X10, at a clean run. *)
Lemma Run_nil_witness :
  DefaultServer (pkg_init fake.newRpcServer [syscall.SIGTERM]) =
    Some (fake.newRpcServer []) /\
  returned (server.Run fst snd fake.server
              (pkg_init fake.newRpcServer [syscall.SIGTERM])) = Some None.
Proof.
  split; [reflexivity|].
  apply (Run_returns_nil_iff_every_step_succeeded fst snd fake.server
           (pkg_init fake.newRpcServer [syscall.SIGTERM])
           (fake.newRpcServer []) eq_refl).
  repeat split. discriminate.
Defined.

(** X11, at a run to which no signal comes. *)
Lemma Run_blocks_witness :
  DefaultServer (pkg_init fake.newRpcServer []) = Some (fake.newRpcServer []) /\
  returned (server.Run fst snd fake.server (pkg_init fake.newRpcServer [])) =
    None /\
  panicked (server.Run fst snd fake.server (pkg_init fake.newRpcServer [])) =
    false.
Proof.
  split; [reflexivity|].
  destruct (Run_blocks_only_waiting_for_a_signal fst snd fake.server
              (pkg_init fake.newRpcServer []) (fake.newRpcServer []) eq_refl)
    as (Hpanic & Hblock & _).
  split; [apply Hblock; repeat split | exact Hpanic].
Defined.

(** X12, at a server whose deregistration fails: it is not stopped. *)
Lemma Run_does_not_stop_witness :
  DefaultServer fake.sticky =
    Some (fake.mkSrv "go-server" [] [] [Some "registry down"] []) /\
  calls_method mDeregister
    (events_since fake.sticky (final (server.Run fst snd fake.server fake.sticky))) /\
  ~ calls_method mStop
      (events_since fake.sticky (final (server.Run fst snd fake.server fake.sticky))).
Proof.
  split; [reflexivity|].
  destruct (Run_stops_only_after_a_clean_deregistration fst snd fake.server
              fake.sticky _ eq_refl) as (_ & Hdereg & Hstop).
  split.
  - apply Hdereg. repeat split. discriminate.
  - intros Hin. apply Hstop in Hin.
    destruct Hin as (_ & _ & _ & Hclean). discriminate Hclean.
Defined.

(** X13, at a sequence of calls from the initial state of the package. *)
Lemma package_calls_witness :
  DefaultServer (pkg_init fake.newRpcServer [syscall.SIGTERM]) =
    Some (fake.newRpcServer []) /\
  panicked
    (server.run_calls fst snd fake.server fake.newRpcServer
       [CallStart; CallInit [fake.with_name "greeter"]; CallHandle "h";
        CallRun; CallStop; CallString]
       (pkg_init fake.newRpcServer [syscall.SIGTERM])) = false.
Proof.
  split; [reflexivity|].
  exact (proj1 (package_calls_never_lose_the_default_server fst snd
                  fake.server fake.newRpcServer
                  [CallStart; CallInit [fake.with_name "greeter"];
                   CallHandle "h"; CallRun; CallStop; CallString]
                  (pkg_init fake.newRpcServer [syscall.SIGTERM])
                  (fake.newRpcServer []) eq_refl)).
Defined.

End RunExamples.
